(** * keras-yolo3: the training driver [train.py]

    A shallow embedding of [train.py]: the dataset split builder
    [create_training_instances], the callback builder [create_callbacks],
    the command line declared through [argparser] and the driver [_main_].

    The collaborators that [train.py] imports (the VOC annotation parser,
    the batch generator, the model factory, the Keras runtime, the
    evaluation routine) are not part of the file.  They are represented by
    a record [World] of oracles; every call that [train.py] makes to one of
    them is recorded, in program order, in a trace of events, and the
    oracle decides whether the call raises and which data it returns. *)

From Stdlib Require Import ZArith QArith Lia List Bool Ascii String.
From Stdlib Require Import Floats.SpecFloat.
From stdpp Require Import base gmap strings list sorting.

Open Scope Z_scope.

#[global] Set Warnings "-clear-no-such-hyp".

(** ** Python numbers *)

(** [int(0.8*len(train_ints))] multiplies two binary64 numbers and truncates
    the product.  Binary64 multiplication returns the exact product rounded
    to 53 significant bits, ties to even; both operands are positive here,
    and the magnitudes stay far from the overflow and underflow ranges, so a
    positive float is represented by an integer mantissa at a fixed scale. *)
Module PyFloat.

(** Round the non-negative integer [q] to 53 significant bits (nearest,
    ties to even).  The value is returned at the scale of [q]. *)
Definition round53 (q : Z) : Z :=
  let k := Z.log2 q + 1 in
  if k <=? 53 then q
  else
    let s := k - 53 in
    let r := q / 2 ^ s in
    let rem := q mod 2 ^ s in
    let half := 2 ^ (s - 1) in
    (if (half <? rem) || ((rem =? half) && Z.odd r) then r + 1 else r) * 2 ^ s.

(** The literal [0.8] denotes the binary64 number
    [7205759403792794 * 2^-53] (hexadecimal 0x1.999999999999ap-1). *)
Definition mantissa_0_8 : Z := 7205759403792794.

(** [float(n)] for a non-negative Python integer: the integer rounded to
    53 significant bits (exact below 2^53). *)
Definition of_int (n : Z) : Z := round53 n.

(** [int(0.8 * n)]: the product has scale [2^-53]; [int] truncates. *)
Definition int_0_8_times (n : Z) : Z :=
  Z.shiftr (round53 (mantissa_0_8 * of_int n)) 53.

(** The same computation through the IEEE 754 specification of the
    standard library, used to cross-check [int_0_8_times]. *)
Definition sf_0_8 : spec_float := S754_finite false 7205759403792794 (-53).

Definition sf_int (x : spec_float) : Z :=
  match x with
  | S754_finite false m e => if 0 <=? e then Z.pos m * 2 ^ e else Z.pos m / 2 ^ (- e)
  | S754_finite true m e => - (if 0 <=? e then Z.pos m * 2 ^ e else Z.pos m / 2 ^ (- e))
  | _ => 0
  end.

Definition sf_int_0_8_times (n : Z) : Z :=
  sf_int (SFmul 53 1024 sf_0_8 (binary_normalize 53 1024 n 0 false)).

End PyFloat.

(** ** numpy's generator and [np.random.shuffle]

    The legacy [RandomState.shuffle] on a Python list: the Fisher-Yates loop
    of numpy's untyped path. *)

Module NpRandom.

(** The generator is abstracted as the stream of its future outcomes. *)
Definition rng : Type := nat -> nat.

(** [random_interval(state, max)]: a draw in [0, max]. *)
Definition random_interval (g : rng) (max : nat) : nat * rng :=
  (g 0%nat mod S max, fun k => g (S k))%nat.

Section Shuffle.
Context {A : Type}.

(** [x[i], x[j] = x[j], x[i]] *)
Definition swap (x : list A) (i j : nat) : list A :=
  match x !! i, x !! j with
  | Some a, Some b => <[j := a]> (<[i := b]> x)
  | _, _ => x
  end.

(** [for i in reversed(range(1, n)): j = random_interval(i); swap] *)
Fixpoint shuffle_from (i : nat) (x : list A) (g : rng) : list A * rng :=
  match i with
  | O => (x, g)
  | S i' =>
      let '(j, g') := random_interval g i in
      shuffle_from i' (swap x i j) g'
  end.

(** [np.random.shuffle(x)] on a Python list: the contents of [x]
    afterwards, and the generator afterwards. *)
Definition shuffle (x : list A) (g : rng) : list A * rng :=
  shuffle_from (length x - 1)%nat x g.

End Shuffle.

End NpRandom.

(** ** Python strings, [sorted] and the data of the run *)

(** [str] comparison is lexicographic on code points, which on UTF-8 encoded
    text is the lexicographic order of the bytes. *)
Definition str_le (s1 s2 : string) : Prop := String.leb s1 s2 = true.

#[global] Instance str_le_dec s1 s2 : Decision (str_le s1 s2).
Proof. unfold str_le. apply _. Defined.

(** [sorted(keys)] for a collection of strings. *)
Definition sorted (l : list string) : list string := merge_sort str_le l.

(** Modelled from the spec: [voc.py] is not among the sources.  Section 3
    describes an instance as a record pairing an image file path with its
    ground-truth bounding boxes and class labels. *)
Record box : Type := { name : string; xmin : Z; ymin : Z; xmax : Z; ymax : Z }.
Record instance : Type := { filename : string; object : list box }.

(** ** Python exceptions *)

Inductive exn : Type :=
| TypeError
| IndexError
| ZeroDivisionError
| SystemExit (code : Z)
| Exception (what : string).

(** ** The command line: [argparse]

    A transcription of the parts of CPython's [argparse] (version 3.11) that
    a parser without positional arguments exercises, whose options are the
    automatic [-h/--help] and options storing one value.  [prefix_chars] is
    ["-"] and [allow_abbrev] is on, the defaults. *)
Module Argparse.

Inductive action_kind : Type := help_action | store_action.

Record Action : Type := {
  option_strings : list string;
  dest : string;
  kind : action_kind;
  required : bool;
  help : string
}.

Record ArgumentParser : Type := {
  description : string;
  actions : list Action
}.

(** The value an option stores: the string, or the empty list that
    [_get_values] is left with once it has removed a value ["--"]. *)
Inductive value : Type := Str (s : string) | EmptyList.

Definition get_values (arg_string : string) : value :=
  if String.eqb arg_string "--" then EmptyList else Str arg_string.

(** An attribute that is absent from the map has the default value
    [None]. *)
Abbreviation Namespace := (gmap string value).

Definition is_dash (c : ascii) : bool := Ascii.eqb c "-"%char.

Fixpoint lstrip_dash (s : string) : string :=
  match s with
  | String c s' => if is_dash c then lstrip_dash s' else s
  | EmptyString => s
  end.

Definition is_long (s : string) : bool := String.prefix "--" s.

(** [dest] as [add_argument] infers it: the first long option string, or
    else the first option string, without its leading dashes. *)
Definition infer_dest (option_strings : list string) : string :=
  match filter (fun s => is_long s = true) option_strings, option_strings with
  | s :: _, _ => lstrip_dash s
  | [], s :: _ => lstrip_dash s
  | [], [] => EmptyString
  end.

(** [ArgumentParser(description=...)]: [add_help] is on by default. *)
Definition new_parser (description : string) : ArgumentParser :=
  {| description := description;
     actions := [ {| option_strings := ["-h"; "--help"]; dest := "help";
                     kind := help_action; required := false;
                     help := "show this help message and exit" |} ] |}.

(** [parser.add_argument] with option strings and [help]: [action] defaults to
    storing one value, [required] to [False], [default] to [None]. *)
Definition add_argument (p : ArgumentParser) (option_strings : list string)
    (help : string) : ArgumentParser :=
  {| description := description p;
     actions := actions p ++
       [ {| option_strings := option_strings; dest := infer_dest option_strings;
            kind := store_action; required := false; help := help |} ] |}.

(** [_option_string_actions], in insertion order. *)
Definition option_table (p : ArgumentParser) : list (string * Action) :=
  a ← actions p; (fun s => (s, a)) <$> option_strings a.

Fixpoint assoc {V : Type} (k : string) (l : list (string * V)) : option V :=
  match l with
  | [] => None
  | (k', v) :: l' => if String.eqb k k' then Some v else assoc k l'
  end.

(** [s.split('=', 1)] when ['=' in s]. *)
Fixpoint split_eq (s : string) : option (string * string) :=
  match s with
  | EmptyString => None
  | String c s' =>
      if Ascii.eqb c "="%char then Some (EmptyString, s')
      else match split_eq s' with
           | Some (l, r) => Some (String c l, r)
           | None => None
           end
  end.

Fixpoint contains_space (s : string) : bool :=
  match s with
  | EmptyString => false
  | String c s' => Ascii.eqb c " "%char || contains_space s'
  end.

Definition is_digit (c : ascii) : bool :=
  ((48 <=? nat_of_ascii c) && (nat_of_ascii c <=? 57))%nat.

Fixpoint all_digits (s : string) : bool :=
  match s with
  | EmptyString => true
  | String c s' => is_digit c && all_digits s'
  end.

(** digits, then a dot, then at least one digit *)
Fixpoint digits_dot_digits (s : string) : bool :=
  match s with
  | EmptyString => false
  | String c s' =>
      if Ascii.eqb c "."%char then negb (String.eqb s' EmptyString) && all_digits s'
      else is_digit c && digits_dot_digits s'
  end.

(** [_negative_number_matcher]: [^-\d+$|^-\d*\.\d+$] *)
Definition negative_number (s : string) : bool :=
  match s with
  | String c s' =>
      is_dash c &&
      ((negb (String.eqb s' EmptyString) && all_digits s') || digits_dot_digits s')
  | EmptyString => false
  end.

Definition has_negative_number_optionals (p : ArgumentParser) : bool :=
  existsb (fun e => negative_number (fst e)) (option_table p).

(** How [_parse_optional] reads one argument string. *)
Inductive reading : Type :=
| positional
| optional (a : option Action) (option_string : string) (explicit_arg : option string)
| ambiguous.

Definition drop2 (s : string) : string :=
  match s with
  | String _ (String _ s') => s'
  | _ => EmptyString
  end.

Definition take2 (s : string) : string :=
  match s with
  | String a (String b _) => String a (String b EmptyString)
  | _ => s
  end.

(** [_get_option_tuples], for a string of at least two characters that
    starts with a dash. *)
Definition get_option_tuples (p : ArgumentParser) (option_string : string)
    : list (Action * string * option string) :=
  if is_long option_string then
    let '(option_prefix, explicit_arg) :=
      match split_eq option_string with
      | Some (l, r) => (l, Some r)
      | None => (option_string, None)
      end in
    omap (fun e : string * Action =>
            if String.prefix option_prefix (fst e)
            then Some (snd e, fst e, explicit_arg) else None)
         (option_table p)
  else
    omap (fun e : string * Action =>
            if String.eqb (fst e) (take2 option_string)
            then Some (snd e, fst e, Some (drop2 option_string))
            else if String.prefix option_string (fst e)
            then Some (snd e, fst e, None) else None)
         (option_table p).

Definition parse_optional (p : ArgumentParser) (arg_string : string) : reading :=
  match arg_string with
  | EmptyString => positional
  | String c _ =>
      if negb (is_dash c) then positional
      else match assoc arg_string (option_table p) with
      | Some a => optional (Some a) arg_string None
      | None =>
          if (String.length arg_string =? 1)%nat then positional
          else
            let by_eq :=
              match split_eq arg_string with
              | Some (o, e) =>
                  match assoc o (option_table p) with
                  | Some a => Some (a, o, e)
                  | None => None
                  end
              | None => None
              end in
            match by_eq with
            | Some (a, o, e) => optional (Some a) o (Some e)
            | None =>
                match get_option_tuples p arg_string with
                | _ :: _ :: _ => ambiguous
                | [(a, o, e)] => optional (Some a) o e
                | [] =>
                    if negative_number arg_string
                       && negb (has_negative_number_optionals p) then positional
                    else if contains_space arg_string then positional
                    else optional None arg_string None
                end
            end
      end
  end.

(** The pattern letter of an argument string: ['A'], ['-'] for the first
    ["--"], or ['O'] with the reading of the option. *)
Inductive pat : Type :=
| pat_A
| pat_dash
| pat_O (a : option Action) (option_string : string) (explicit_arg : option string).

(** All argument strings are read before any action is taken; an ambiguous
    abbreviation is an error at that point. *)
Fixpoint read_all (p : ArgumentParser) (arg_strings : list string)
    : option (list (string * pat)) :=
  match arg_strings with
  | [] => Some []
  | s :: rest =>
      if String.eqb s "--" then
        Some ((s, pat_dash) :: ((fun s' => (s', pat_A)) <$> rest))
      else
        match parse_optional p s with
        | ambiguous => None
        | positional => cons (s, pat_A) <$> read_all p rest
        | optional a o e => cons (s, pat_O a o e) <$> read_all p rest
        end
  end.

(** One value for a storing option: for an option the pattern is [A], the
    next string must be an ['A'] string, which is the value. *)
Definition match_one (following : list (string * pat))
    : option (string * list (string * pat)) :=
  match following with
  | (v, pat_A) :: rest => Some (v, rest)
  | _ => None
  end.

(** The loop of [consume_optional] while an explicit argument is attached.
    [inl e]: the loop raised [e]; [inr (h, a, o, v)]: it ends on action [a]
    under option string [o] with attached value [v] (or none), [h] telling
    whether a help action is queued before it. *)
Fixpoint consume_explicit (p : ArgumentParser) (help_queued : bool) (a : Action)
    (option_string explicit_arg : string) {struct explicit_arg}
    : exn + (bool * Action * string * option string) :=
  match kind a with
  | store_action => inr (help_queued, a, option_string, Some explicit_arg)
  | help_action =>
      if is_long option_string then inl (SystemExit 2)
      else
        match explicit_arg with
        | EmptyString => inl (SystemExit 2)
        | String c e' =>
            let option_string' := String "-"%char (String c EmptyString) in
            match assoc option_string' (option_table p) with
            | None => inl (SystemExit 2)
            | Some a' =>
                match e' with
                | EmptyString => inr (true, a', option_string', None)
                | _ => consume_explicit p true a' option_string' e'
                end
            end
        end
  end.

(** The main loop of [_parse_known_args].  With no positional declared,
    every ['A'] or ['-'] string outside an option's value, and every unknown
    option, is left over. *)
Fixpoint consume (p : ArgumentParser) (fuel : nat) (args : list (string * pat))
    (ns : Namespace) (seen : list string) (extras : list string)
    : exn + (Namespace * list string * list string) :=
  match fuel, args with
  | _, [] => inr (ns, seen, extras)
  | O, _ :: _ => inr (ns, seen, extras)
  | S fuel', (s, pat_A) :: rest | S fuel', (s, pat_dash) :: rest =>
      consume p fuel' rest ns seen (extras ++ [s])
  | S fuel', (s, pat_O None _ _) :: rest =>
      consume p fuel' rest ns seen (extras ++ [s])
  | S fuel', (s, pat_O (Some a) o e) :: rest =>
      let last :=
        match e with
        | Some e' => consume_explicit p false a o e'
        | None => inr (false, a, o, None)
        end in
      match last with
      | inl err => inl err
      | inr (help_queued, a', _, v) =>
          match kind a', v with
          | help_action, _ => inl (SystemExit 0)
          | store_action, Some x =>
              if help_queued then inl (SystemExit 0)
              else consume p fuel' rest (<[dest a' := get_values x]> ns) (dest a' :: seen) extras
          | store_action, None =>
              match match_one rest with
              | None => inl (SystemExit 2)
              | Some (x, rest') =>
                  if help_queued then inl (SystemExit 0)
                  else consume p fuel' rest' (<[dest a' := get_values x]> ns) (dest a' :: seen) extras
              end
          end
      end
  end.

(** [parser.parse_args(argv)]: a usage error exits with status 2, the help
    action with status 0. *)
Definition parse_args (p : ArgumentParser) (argv : list string) : exn + Namespace :=
  match read_all p argv with
  | None => inl (SystemExit 2)
  | Some args =>
      match consume p (length args) args ∅ [] [] with
      | inl err => inl err
      | inr (ns, seen, extras) =>
          if existsb (fun a => required a && negb (existsb (String.eqb (dest a)) seen))
                     (actions p)
          then inl (SystemExit 2)
          else match extras with
               | [] => inr ns
               | _ :: _ => inl (SystemExit 2)
               end
      end
  end.

End Argparse.

(** Lines 18 to 24 of [train.py]. *)
Definition argparser : Argparse.ArgumentParser :=
  Argparse.add_argument
    (Argparse.new_parser "Train and evaluate YOLO_v3 model on any dataset")
    ["-c"; "--conf"] "path to configuration file".

(** ** The configuration document

    The JSON document of the run, with the keys that [train.py] reads.
    JSON integers are Python integers, JSON decimals are kept as the
    rationals they denote. *)
Module Config.

Record train_section : Type := {
  train_image_folder : string;
  train_annot_folder : string;
  include_empty : bool;
  train_times : Z;
  batch_size : Z;
  learning_rate : Q;
  nb_epochs : Z;
  warmup_epochs : Z;
  ignore_thresh : Q;
  saved_weights_name : string;
  debug : bool
}.

Record valid_section : Type := {
  valid_image_folder : string;
  valid_annot_folder : string;
  valid_times : Z
}.

Record model_section : Type := {
  min_input_size : Z;
  max_input_size : Z;
  anchors : list Z;
  max_box_per_image : Z;
  labels : list string
}.

Record t : Type := {
  train : train_section;
  valid : valid_section;
  model : model_section
}.

End Config.

(** ** Keras callbacks, as [create_callbacks] configures them *)

Module EarlyStopping.
Record t : Type := {
  monitor : string;
  min_delta : Q;
  patience : Z;
  mode : string;
  verbose : Z
}.
End EarlyStopping.

Module ModelCheckpoint.
Record t : Type := {
  filepath : string;
  monitor : string;
  verbose : Z;
  save_best_only : bool;
  mode : string;
  period : Z
}.
End ModelCheckpoint.

Inductive callback : Type :=
| early_stopping (c : EarlyStopping.t)
| model_checkpoint (c : ModelCheckpoint.t).

(** ** Calls to the collaborators *)

Inductive model_role : Type := train_model | infer_model.

(** [utils.utils.normalize], passed as [norm]. *)
Inductive function_ref : Type := normalize.

Module BatchGenerator.
Record t : Type := {
  instances : option (list instance);
  anchors : list Z;
  labels : option (list string);
  downsample : Z;
  max_box_per_image : Z;
  batch_size : Z;
  min_net_size : Z;
  max_net_size : Z;
  shuffle : bool;
  jitter : Q;
  norm : function_ref
}.
End BatchGenerator.

Module Yolo.
Record args : Type := {
  nb_class : Z;
  anchors : list Z;
  max_box_per_image : Z;
  max_grid : list Z;
  batch_size : Z;
  warmup_batches : Z;
  ignore_thresh : Q
}.
End Yolo.

Module Adam.
Record t : Type := { lr : Q; beta_1 : Q; beta_2 : Q; epsilon : Q; decay : Q }.
End Adam.

Module Fit.
Record args : Type := {
  generator : BatchGenerator.t;
  steps_per_epoch : Z;
  epochs : Z;
  verbose : Z;
  validation_data : BatchGenerator.t;
  validation_steps : Z;
  callbacks : list callback;
  workers : Z;
  max_queue_size : Z
}.
End Fit.

Inductive call : Type :=
| open_config (path : string)
| parse_voc_annotation (ann_dir img_dir : string) (labels : list string) (include_empty : bool)
| np_random_shuffle (x : list instance)
| BatchGenerator_init (g : BatchGenerator.t)
| create_yolov3_model (a : Yolo.args)
| load_weights (m : model_role) (path : string)
| compile (optimizer : Adam.t)
| fit_generator (a : Fit.args)
| save (m : model_role) (path : string)
| evaluate (m : model_role) (g : BatchGenerator.t).

(** What [print] writes: the fixed messages as text; the lines
    ['Seen labels:'], ['Given labels:'], ['Overlap labels:'], the score of a
    label and ['mAP:'] as the values they format. *)
Inductive line : Type :=
| text (s : string)
| line_seen (train_labels : gmap string nat)
| line_given (labels : list string)
| line_overlap (overlap_labels : gset string)
| label_score (label : string) (average_precision : Q)
| mAP_score (mAP : Q).

Inductive event : Type :=
| Printed (l : line)
| Called (c : call).

(** The collaborators and the file system of one run. *)
Record World : Type := {
  (** [os.path.exists] *)
  path_exists : string -> bool;
  (** whether a call raises, and what *)
  raises : call -> option exn;
  (** the document [json.loads] reads from the file at a path *)
  config_at : string -> Config.t;
  (** what [parse_voc_annotation] returns: the instances and the seen
      labels with their counts *)
  annotations : string -> string -> list string -> bool -> list instance * gmap string nat;
  (** [len(generator)] *)
  generator_len : BatchGenerator.t -> Z;
  (** what [evaluate] returns: label index and average precision, in the
      order of the mapping *)
  average_precisions_of : model_role -> BatchGenerator.t -> list (nat * Q)
}.

(** ** The monad of [train.py]: generator state, exceptions, trace *)

Definition M (A : Type) : Type :=
  NpRandom.rng -> (exn + A) * NpRandom.rng * list event.

#[global] Instance M_ret : MRet M := fun A a g => (inr a, g, []).

#[global] Instance M_bind : MBind M := fun A B f m g =>
  match m g with
  | (inl e, g1, t1) => (inl e, g1, t1)
  | (inr a, g1, t1) =>
      match f a g1 with
      | (r, g2, t2) => (r, g2, t1 ++ t2)
      end
  end.

Definition raise {A : Type} (e : exn) : M A := fun g => (inl e, g, []).

Definition print (l : line) : M unit := fun g => (inr tt, g, [Printed l]).

(** A call to a collaborator: recorded, then it raises or returns. *)
Definition do_call (w : World) (c : call) : M unit := fun g =>
  (match raises w c with Some e => inl e | None => inr tt end, g, [Called c]).

(** [np.random.shuffle(x)]: recorded; the list is permuted in place by the
    generator. *)
Definition shuffle_in_place (x : list instance) : M (list instance) := fun g =>
  let '(x', g') := NpRandom.shuffle x g in (inr x', g', [Called (np_random_shuffle x)]).

Definition result {A : Type} (r : (exn + A) * NpRandom.rng * list event) : exn + A :=
  fst (fst r).
Definition trace {A : Type} (r : (exn + A) * NpRandom.rng * list event) : list event :=
  snd r.
Definition rng_after {A : Type} (r : (exn + A) * NpRandom.rng * list event) : NpRandom.rng :=
  snd (fst r).

(** ** Python built-ins used by the driver *)

(** The position a slice bound [k] denotes in a list of length [n]. *)
Definition slice_bound (n : nat) (k : Z) : nat :=
  if k <? 0 then Z.to_nat (Z.max 0 (Z.of_nat n + k)) else Nat.min (Z.to_nat k) n.

(** [x[k:]] and [x[:k]] *)
Definition slice_from {A : Type} (x : list A) (k : Z) : list A :=
  drop (slice_bound (length x) k) x.
Definition slice_to {A : Type} (x : list A) (k : Z) : list A :=
  take (slice_bound (length x) k) x.

(** [len(x)] where [x] may be [None] *)
Definition len {A : Type} (x : option (list A)) : M Z :=
  match x with
  | None => raise TypeError
  | Some l => mret (Z.of_nat (length l))
  end.

(** [x[i]] where [x] may be [None] and [i] is a non-negative index *)
Definition getitem {A : Type} (x : option (list A)) (i : nat) : M A :=
  match x with
  | None => raise TypeError
  | Some l => match l !! i with Some a => mret a | None => raise IndexError end
  end.

(** [sum(values)]: the additions from the left, starting at 0 *)
Definition sum (values : list Q) : Q := fold_left Qplus values 0%Q.

(** [x / n] *)
Definition truediv (x : Q) (n : Z) : M Q :=
  if n =? 0 then raise ZeroDivisionError else mret (x / inject_Z n)%Q.

Fixpoint for_each {A : Type} (l : list A) (body : A -> M unit) : M unit :=
  match l with
  | [] => mret tt
  | x :: l' => body x;; for_each l' body
  end.

(** ** [train.py] *)

Section Train.
Variable w : World.

(** [parse_voc_annotation(ann_dir, img_dir, labels, include_empty)] *)
Definition call_parse_voc_annotation (ann_dir img_dir : string) (labels : list string)
    (include_empty : bool) : M (list instance * gmap string nat) :=
  do_call w (parse_voc_annotation ann_dir img_dir labels include_empty);;
  mret (annotations w ann_dir img_dir labels include_empty).

(** Lines 26 to 64. *)
Definition create_training_instances
    (train_annot_folder train_image_folder valid_annot_folder valid_image_folder : string)
    (labels : list string) (include_empty : bool)
    : M (option (list instance) * option (list instance) * option (list string)) :=
  '(train_ints, train_labels) ←
    call_parse_voc_annotation train_annot_folder train_image_folder labels include_empty;
  '(train_ints, valid_ints) ←
    (if path_exists w valid_annot_folder then
       print (text "valid_annot_folder not exists. Spliting the trainining set.");;
       '(valid_ints, valid_labels) ←
         call_parse_voc_annotation valid_annot_folder valid_image_folder labels include_empty;
       mret (train_ints, valid_ints)
     else
       let train_valid_split := PyFloat.int_0_8_times (Z.of_nat (length train_ints)) in
       train_ints ← shuffle_in_place train_ints;
       let valid_ints := slice_from train_ints train_valid_split in
       let train_ints := slice_to train_ints train_valid_split in
       mret (train_ints, valid_ints));
  if (0 <? length labels)%nat then
    let overlap_labels := (list_to_set labels : gset string) ∩ dom train_labels in
    print (line_seen train_labels);;
    print (line_given labels);;
    print (line_overlap overlap_labels);;
    if (size overlap_labels <? length labels)%nat then
      print (text "Some labels have no annotations! Please revise the list of labels in the config.json.");;
      mret (None, None, None)
    else
      mret (Some train_ints, Some valid_ints, Some labels)
  else
    print (text "No labels are provided. Train on all seen labels.");;
    let labels := sorted (elements (dom train_labels)) in
    mret (Some train_ints, Some valid_ints, Some labels).

(** Lines 66 to 84. *)
Definition create_callbacks (saved_weights_name : string) : list callback :=
  let early_stop :=
    {| EarlyStopping.monitor := "val_loss";
       EarlyStopping.min_delta := (1 # 1000)%Q;
       EarlyStopping.patience := 3;
       EarlyStopping.mode := "min";
       EarlyStopping.verbose := 1 |} in
  let checkpoint :=
    {| ModelCheckpoint.filepath := saved_weights_name;
       ModelCheckpoint.monitor := "val_loss";
       ModelCheckpoint.verbose := 1;
       ModelCheckpoint.save_best_only := true;
       ModelCheckpoint.mode := "min";
       ModelCheckpoint.period := 1 |} in
  [early_stopping early_stop; model_checkpoint checkpoint].

(** [with open(config_path) as config_buffer: json.loads(config_buffer.read())] *)
Definition load_config (config_path : option Argparse.value) : M Config.t :=
  match config_path with
  | Some (Argparse.Str path) => do_call w (open_config path);; mret (config_at w path)
  | Some Argparse.EmptyList | None => raise TypeError
  end.

(** Lines 107 to 119: the arguments of the training [BatchGenerator]. *)
Definition train_generator (config : Config.t) (train_ints : option (list instance))
    (labels : option (list string)) : BatchGenerator.t :=
  {| BatchGenerator.instances := train_ints;
     BatchGenerator.anchors := Config.anchors (Config.model config);
     BatchGenerator.labels := labels;
     BatchGenerator.downsample := 32;
     BatchGenerator.max_box_per_image := Config.max_box_per_image (Config.model config);
     BatchGenerator.batch_size := Config.batch_size (Config.train config);
     BatchGenerator.min_net_size := Config.min_input_size (Config.model config);
     BatchGenerator.max_net_size := Config.max_input_size (Config.model config);
     BatchGenerator.shuffle := true;
     BatchGenerator.jitter := (3 # 10)%Q;
     BatchGenerator.norm := normalize |}.

(** Lines 121 to 133: the arguments of the validation [BatchGenerator]. *)
Definition valid_generator (config : Config.t) (valid_ints : option (list instance))
    (labels : option (list string)) : BatchGenerator.t :=
  {| BatchGenerator.instances := valid_ints;
     BatchGenerator.anchors := Config.anchors (Config.model config);
     BatchGenerator.labels := labels;
     BatchGenerator.downsample := 32;
     BatchGenerator.max_box_per_image := Config.max_box_per_image (Config.model config);
     BatchGenerator.batch_size := Config.batch_size (Config.train config);
     BatchGenerator.min_net_size := Config.min_input_size (Config.model config);
     BatchGenerator.max_net_size := Config.max_input_size (Config.model config);
     BatchGenerator.shuffle := true;
     BatchGenerator.jitter := 0%Q;
     BatchGenerator.norm := normalize |}.

(** Lines 86 to 193. *)
Definition _main_ (args : Argparse.Namespace) : M unit :=
  let config_path := args !! "conf" in
  config ← load_config config_path;
  let c_train := Config.train config in
  let c_valid := Config.valid config in
  let c_model := Config.model config in
  (* Parse the annotations *)
  '(train_ints, valid_ints, labels) ←
    create_training_instances
      (Config.train_annot_folder c_train) (Config.train_image_folder c_train)
      (Config.valid_annot_folder c_valid) (Config.valid_image_folder c_valid)
      (Config.labels c_model) (Config.include_empty c_train);
  (* Create the generators *)
  let train_generator := train_generator config train_ints labels in
  do_call w (BatchGenerator_init train_generator);;
  let valid_generator := valid_generator config valid_ints labels in
  do_call w (BatchGenerator_init valid_generator);;
  (* Create the model *)
  let warmup_batches :=
    if path_exists w (Config.saved_weights_name c_train) then 0
    else Config.warmup_epochs c_train
         * (Config.train_times c_train * generator_len w train_generator
            + Config.valid_times c_valid * generator_len w valid_generator) in
  nb_class ← len labels;
  do_call w (create_yolov3_model
    {| Yolo.nb_class := nb_class;
       Yolo.anchors := Config.anchors c_model;
       Yolo.max_box_per_image := Config.max_box_per_image c_model;
       Yolo.max_grid := [Config.max_input_size c_model; Config.max_input_size c_model];
       Yolo.batch_size := Config.batch_size c_train;
       Yolo.warmup_batches := warmup_batches;
       Yolo.ignore_thresh := Config.ignore_thresh c_train |});;
  (if path_exists w (Config.saved_weights_name c_train) then
     print (text "Loading pretrained weights.");;
     do_call w (load_weights train_model (Config.saved_weights_name c_train))
   else
     do_call w (load_weights train_model "backend.h5"));;
  (* Kick off the training *)
  let optimizer :=
    {| Adam.lr := Config.learning_rate c_train;
       Adam.beta_1 := (9 # 10)%Q; Adam.beta_2 := (999 # 1000)%Q;
       Adam.epsilon := (1 # 100000000)%Q; Adam.decay := 0%Q |} in
  do_call w (compile optimizer);;
  let callbacks := create_callbacks (Config.saved_weights_name c_train) in
  do_call w (fit_generator
    {| Fit.generator := train_generator;
       Fit.steps_per_epoch := generator_len w train_generator * Config.train_times c_train;
       Fit.epochs := Config.nb_epochs c_train + Config.warmup_epochs c_train;
       Fit.verbose := if Config.debug c_train then 2 else 1;
       Fit.validation_data := valid_generator;
       Fit.validation_steps := generator_len w valid_generator * Config.valid_times c_valid;
       Fit.callbacks := callbacks;
       Fit.workers := 3;
       Fit.max_queue_size := 8 |});;
  do_call w (load_weights infer_model (Config.saved_weights_name c_train));;
  do_call w (save infer_model (Config.saved_weights_name c_train));;
  (* Run the evaluation *)
  do_call w (evaluate infer_model valid_generator);;
  let average_precisions := average_precisions_of w infer_model valid_generator in
  for_each average_precisions (fun item =>
    label ← getitem labels (fst item);
    print (label_score label (snd item)));;
  mAP ← truediv (sum (snd <$> average_precisions)) (Z.of_nat (length average_precisions));
  print (mAP_score mAP).

(** Lines 195 to 197: [args = argparser.parse_args()] on the arguments of
    the command line, then [_main_(args)]. *)
Definition __main__ (argv : list string) : M unit :=
  match Argparse.parse_args argparser argv with
  | inl e => raise e
  | inr args => _main_ args
  end.

End Train.

(** ** A sample run

    A small data set with two labels, used to evaluate the definitions. *)

Definition sample_box (label : string) : box :=
  {| name := label; xmin := 10; ymin := 20; xmax := 110; ymax := 220 |}.

Definition sample_image (file : string) (names : list string) : instance :=
  {| filename := file; object := sample_box <$> names |}.

Definition sample_train_ints : list instance :=
  [ sample_image "img/1.jpg" ["cat"];
    sample_image "img/2.jpg" ["dog"];
    sample_image "img/3.jpg" ["cat"; "dog"];
    sample_image "img/4.jpg" ["cat"];
    sample_image "img/5.jpg" ["dog"] ].

Definition sample_valid_ints : list instance :=
  [ sample_image "val/1.jpg" ["dog"]; sample_image "val/2.jpg" ["cat"] ].

Definition sample_seen : gmap string nat := {[ "dog" := 3%nat; "cat" := 3%nat ]}.

Definition sample_config (labels : list string) : Config.t :=
  {| Config.train :=
       {| Config.train_image_folder := "img/";
          Config.train_annot_folder := "ann/";
          Config.include_empty := false;
          Config.train_times := 8;
          Config.batch_size := 2;
          Config.learning_rate := (1 # 10000)%Q;
          Config.nb_epochs := 100;
          Config.warmup_epochs := 3;
          Config.ignore_thresh := (1 # 2)%Q;
          Config.saved_weights_name := "weights.h5";
          Config.debug := true |};
     Config.valid :=
       {| Config.valid_image_folder := "val/";
          Config.valid_annot_folder := "val_ann/";
          Config.valid_times := 1 |};
     Config.model :=
       {| Config.min_input_size := 288;
          Config.max_input_size := 448;
          Config.anchors := [55; 69; 75; 234; 133; 240; 136; 129; 142; 363; 203; 290;
                             228; 184; 285; 359; 341; 260];
          Config.max_box_per_image := 30;
          Config.labels := labels |} |}.

(** No collaborator raises; the training folder holds five annotated
    images; [has_valid] and [has_weights] tell whether the validation
    folder and the saved weights exist. *)
Definition sample_world (labels : list string) (has_valid has_weights : bool) : World :=
  {| path_exists := fun path =>
       if String.eqb path "val_ann/" then has_valid
       else if String.eqb path "weights.h5" then has_weights
       else true;
     raises := fun _ => None;
     config_at := fun _ => sample_config labels;
     annotations := fun ann_dir _ _ _ =>
       if String.eqb ann_dir "ann/" then (sample_train_ints, sample_seen)
       else (sample_valid_ints, {[ "dog" := 1%nat; "cat" := 1%nat ]});
     generator_len := fun gen =>
       match BatchGenerator.instances gen with
       | Some l => (Z.of_nat (length l) + BatchGenerator.batch_size gen - 1)
                   / BatchGenerator.batch_size gen
       | None => 0
       end;
     average_precisions_of := fun _ _ => [(0%nat, (1 # 2)%Q); (1%nat, (3 # 4)%Q)] |}.

(** The generator outcomes 0, 1, 2, ... *)
Definition sample_rng : NpRandom.rng := fun k => k.

(** The arguments of the command line [-c config.json], parsed. *)
Definition sample_args : Argparse.Namespace := {[ "conf" := Argparse.Str "config.json" ]}.

(** ** Observations on traces *)

(** The events [create_training_instances] can produce: calls to the
    annotation parser and to [np.random.shuffle], and the label
    diagnostics. *)
Definition dataset_event (e : event) : Prop :=
  match e with
  | Called (parse_voc_annotation _ _ _ _) | Called (np_random_shuffle _) => True
  | Printed (text _) | Printed (line_seen _) | Printed (line_given _)
  | Printed (line_overlap _) => True
  | _ => False
  end.

(** The warmup counts handed to the model factory along a trace. *)
Definition warmup_batches_called (t : list event) : list Z :=
  omap (fun e => match e with
                 | Called (create_yolov3_model a) => Some (Yolo.warmup_batches a)
                 | _ => None
                 end) t.

(** The line that announces the three [None]. *)
Definition abort_line : event :=
  Printed (text "Some labels have no annotations! Please revise the list of labels in the config.json.").






(** Every event of every run of a computation has a property. *)
Definition all_events (P : event -> Prop) {A : Type} (m : M A) : Prop :=
  forall g, Forall P (trace (m g)).

(** The saved-weights path of the run: the one configured in the document
    that the command line names. *)
Definition saved_path (w : World) (args : Argparse.Namespace) : option string :=
  match args !! "conf" with
  | Some (Argparse.Str path) =>
      Some (Config.saved_weights_name (Config.train (config_at w path)))
  | _ => None
  end.

(** What a recorded event may touch: the configuration file named on the
    command line; the saved-weights path, for the checkpoint, for the
    weights loaded into the inference model and for the model saved; for
    the training model, the saved weights when they exist and the backend
    weights otherwise.  Only the inference model is saved or evaluated. *)
Definition keeps_to_configured_files (w : World) (args : Argparse.Namespace)
    (ev : event) : Prop :=
  match ev with
  | Called (open_config path) => args !! "conf" = Some (Argparse.Str path)
  | Called (fit_generator a) =>
      exists p, saved_path w args = Some p /\ Fit.callbacks a = create_callbacks p
  | Called (load_weights train_model path) =>
      exists p, saved_path w args = Some p /\
                path = (if path_exists w p then p else "backend.h5")
  | Called (load_weights infer_model path) => saved_path w args = Some path
  | Called (save m path) => m = infer_model /\ saved_path w args = Some path
  | Called (evaluate m _) => m = infer_model
  | _ => True
  end.

(** The number of classes of a recorded call of the model factory. *)
Definition nb_class_is (n : nat) (ev : event) : Prop :=
  match ev with
  | Called (create_yolov3_model a) => Yolo.nb_class a = Z.of_nat n
  | _ => True
  end.

(** The two actions of the parser: the help action, and the one that
    stores under [conf]. *)
Definition known_action (a : Argparse.Action) : Prop :=
  Argparse.kind a = Argparse.help_action \/
  (Argparse.kind a = Argparse.store_action /\ Argparse.dest a = "conf").

(** The argument strings, once read: every option that names an action
    names one of the parser's. *)
Definition known_pattern (x : string * Argparse.pat) : Prop :=
  match snd x with
  | Argparse.pat_O (Some a) _ _ => known_action a
  | _ => True
  end.

(** An event that prints the mAP. *)
Definition prints_mAP (ev : event) : Prop :=
  match ev with Printed (mAP_score _) => True | _ => False end.

(** A run that ends normally ends on the mAP line; a run that ends in an
    exception has not printed it. *)
Definition completes_with_mAP (r : (exn + unit) * NpRandom.rng * list event) : Prop :=
  match result r with
  | inr _ => exists mAP, last (trace r) = Some (Printed (mAP_score mAP))
  | inl _ => Forall (fun ev => ~ prints_mAP ev) (trace r)
  end.

(** The sample world in which the annotation parser raises on one folder. *)
Definition sample_world_unreadable (folder : string) (has_valid : bool) : World :=
  let w := sample_world [] has_valid false in
  {| path_exists := path_exists w;
     raises := fun c =>
       match c with
       | parse_voc_annotation ann_dir _ _ _ =>
           if String.eqb ann_dir folder
           then Some (Exception "cannot read the annotation folder") else None
       | _ => None
       end;
     config_at := config_at w;
     annotations := annotations w;
     generator_len := generator_len w;
     average_precisions_of := average_precisions_of w |}.

(** The sample world in which the evaluation returns an average precision
    under a label index that the two labels do not have. *)
Definition sample_world_stray_index : World :=
  let w := sample_world [] false false in
  {| path_exists := path_exists w;
     raises := raises w;
     config_at := config_at w;
     annotations := annotations w;
     generator_len := generator_len w;
     average_precisions_of := fun _ _ => [(0%nat, (1 # 2)%Q); (2%nat, (3 # 4)%Q)] |}.

(** * Properties *)

(** ** The split index [int(0.8*n)] *)

Lemma round53_small q : 0 <= q < 2 ^ 53 -> PyFloat.round53 q = q.
Proof.
  intros [H0 H1]. unfold PyFloat.round53.
  destruct (Z.eq_dec q 0) as [->|Hq]; [reflexivity|].
  assert (Z.log2 q < 53) by (apply Z.log2_lt_pow2; lia).
  destruct (Z.leb_spec (Z.log2 q + 1) 53); [reflexivity | lia].
Qed.

(** Rounding a product that needs more than 53 bits keeps its quotient by
    a power of two, or moves to the next one when the remainder is at least
    half of that power. *)
Lemma round53_large q :
  2 ^ 53 <= q < 2 ^ 103 ->
  exists s r rem,
    1 <= s <= 50 /\ q = r * 2 ^ s + rem /\ 0 <= rem < 2 ^ s /\
    (PyFloat.round53 q = r * 2 ^ s \/
     (PyFloat.round53 q = (r + 1) * 2 ^ s /\ 2 ^ (s - 1) <= rem)).
Proof.
  intros [Hlo Hhi]. unfold PyFloat.round53.
  assert (Hq : 0 < q) by lia.
  assert (53 <= Z.log2 q) by (apply Z.log2_le_pow2; lia).
  assert (Z.log2 q < 103) by (apply Z.log2_lt_pow2; lia).
  destruct (Z.leb_spec (Z.log2 q + 1) 53); [lia|].
  set (s := Z.log2 q + 1 - 53).
  assert (Hs : 1 <= s <= 50) by (unfold s; lia).
  assert (Hp : 0 < 2 ^ s) by (apply Z.pow_pos_nonneg; lia).
  exists s, (q / 2 ^ s), (q mod 2 ^ s).
  split; [exact Hs|]. split.
  { rewrite (Z.div_mod q (2 ^ s)) at 1 by lia. ring. }
  split; [apply Z.mod_pos_bound; exact Hp|].
  destruct ((2 ^ (s - 1) <? q mod 2 ^ s)
            || ((q mod 2 ^ s =? 2 ^ (s - 1)) && Z.odd (q / 2 ^ s))) eqn:E.
  - right. split; [reflexivity|].
    apply orb_true_iff in E as [E|E].
    + apply Z.ltb_lt in E. lia.
    + apply andb_true_iff in E as [E _]. apply Z.eqb_eq in E. lia.
  - left. reflexivity.
Qed.

(** Below 2^50 elements the float computation [int(0.8*n)] is the integer
    floor of four fifths of [n]. *)
Lemma int_0_8_times_floor n :
  0 <= n < 2 ^ 50 -> PyFloat.int_0_8_times n = 4 * n / 5.
Proof.
  intros Hn. unfold PyFloat.int_0_8_times, PyFloat.of_int.
  rewrite (round53_small n) by lia.
  rewrite Z.shiftr_div_pow2 by lia.
  destruct (Z_lt_le_dec n 2) as [Hsmall|Hbig].
  { assert (n = 0 \/ n = 1) as [-> | ->] by lia; reflexivity. }
  set (x := 4 * n / 5).
  assert (Hx : 5 * x <= 4 * n < 5 * x + 5).
  { unfold x. pose proof (Z.div_mod (4 * n) 5 ltac:(lia)).
    pose proof (Z.mod_pos_bound (4 * n) 5 ltac:(lia)). lia. }
  clearbody x.
  assert (H5 : 5 * (PyFloat.mantissa_0_8 * n) = 4 * n * 2 ^ 53 + 2 * n)
    by (unfold PyFloat.mantissa_0_8; lia).
  destruct (round53_large (PyFloat.mantissa_0_8 * n)) as (s & r & rem & Hs & Hq & Hrem & Hr).
  { unfold PyFloat.mantissa_0_8. lia. }
  set (q := PyFloat.mantissa_0_8 * n) in *. clearbody q.
  assert (Hpow : 2 ^ 53 = 2 ^ s * 2 ^ (53 - s)).
  { rewrite <- Z.pow_add_r by lia. f_equal. lia. }
  assert (Hhalf : 2 ^ s = 2 * 2 ^ (s - 1)).
  { replace s with (1 + (s - 1)) at 1 by lia. rewrite Z.pow_add_r by lia. reflexivity. }
  assert (Hhb : 0 < 2 ^ (s - 1) <= 2 ^ 49).
  { split; [apply Z.pow_pos_nonneg; lia | apply Z.pow_le_mono_r; lia]. }
  assert (HT : 0 < 2 ^ (53 - s)) by (apply Z.pow_pos_nonneg; lia).
  set (P := 2 ^ s) in *. set (T := 2 ^ (53 - s)) in *. set (h := 2 ^ (s - 1)) in *.
  clearbody P T h.
  assert (HP : 0 < P) by lia.
  assert (Hlow : x * T <= r) by nia.
  assert (Hup : r < (x + 1) * T) by nia.
  symmetry.
  destruct Hr as [-> | [-> Hge]].
  - rewrite Hpow, (Z.mul_comm P T), Z.div_mul_cancel_r by lia.
    apply Z.div_unique with (r := r - x * T); lia.
  - rewrite Hpow, (Z.mul_comm P T), Z.div_mul_cancel_r by lia.
    assert (r + 1 < (x + 1) * T) by nia.
    apply Z.div_unique with (r := r + 1 - x * T); lia.
Qed.

(** The arithmetic model agrees with the IEEE 754 specification on sample
    lengths, also beyond the range where the floor is met. *)
Example int_0_8_times_cross_check :
  forallb (fun n => PyFloat.int_0_8_times n =? PyFloat.sf_int_0_8_times n)
    [0; 1; 2; 3; 4; 5; 6; 7; 8; 9; 10; 11; 99; 100; 101; 12345; 65537; 1000003;
     2 ^ 40 + 1; 2 ^ 49 + 3; 2 ^ 50 - 1; 2 ^ 52 + 1; 5629499534213121;
     2 ^ 53 - 1; 2 ^ 53 + 1; 2 ^ 53 + 3; 2 ^ 60 + 12345; 2 ^ 62 + 2 ^ 9 + 1] = true.
Proof. vm_compute. reflexivity. Qed.

(** Past the range of lengths a list can have, the float product is no
    longer the floor. *)
Example int_0_8_times_beyond : PyFloat.int_0_8_times (2 ^ 52 + 1) = 4 * (2 ^ 52 + 1) / 5 + 1.
Proof. vm_compute. reflexivity. Qed.

(** ** [np.random.shuffle] permutes *)

Lemma swap_Permutation {A : Type} (x : list A) i j : NpRandom.swap x i j ≡ₚ x.
Proof.
  unfold NpRandom.swap.
  destruct (x !! i) as [a|] eqn:Hi; [|done].
  destruct (x !! j) as [b|] eqn:Hj; [|done].
  by apply Permutation_insert_swap.
Qed.

Lemma shuffle_from_Permutation {A : Type} i (x : list A) g :
  fst (NpRandom.shuffle_from i x g) ≡ₚ x.
Proof.
  revert x g. induction i as [|i IH]; intros x g; simpl; [done|].
  rewrite IH. apply swap_Permutation.
Qed.

Lemma shuffle_Permutation {A : Type} (x : list A) g : fst (NpRandom.shuffle x g) ≡ₚ x.
Proof. apply shuffle_from_Permutation. Qed.

Lemma shuffle_length {A : Type} (x : list A) g :
  length (fst (NpRandom.shuffle x g)) = length x.
Proof. apply Permutation_length, shuffle_Permutation. Qed.

(** Every draw of the loop is used: with the draws 0, 1, 2 a list of four
    is rearranged. *)
Example shuffle_example :
  fst (NpRandom.shuffle [10; 20; 30; 40] (fun k => k)) = [30; 40; 20; 10].
Proof. vm_compute. reflexivity. Qed.

(** ** The order of strings and [sorted] *)

Lemma string_compare_trans_le s1 s2 s3 :
  String.compare s1 s2 <> Gt -> String.compare s2 s3 <> Gt -> String.compare s1 s3 <> Gt.
Proof.
  revert s2 s3. induction s1 as [|a s1 IH]; intros [|b s2] [|c s3]; simpl; try congruence.
  unfold Ascii.compare.
  destruct (N.compare_spec (N_of_ascii a) (N_of_ascii b)) as [Hab|Hab|Hab]; [| |congruence].
  - rewrite Hab.
    destruct (N.compare_spec (N_of_ascii b) (N_of_ascii c)); try congruence. apply IH.
  - destruct (N.compare_spec (N_of_ascii b) (N_of_ascii c)) as [Hbc|Hbc|Hbc]; [| |congruence].
    + rewrite <- Hbc. intros _ _.
      destruct (N.compare_spec (N_of_ascii a) (N_of_ascii b)); [lia|congruence|lia].
    + intros _ _.
      destruct (N.compare_spec (N_of_ascii a) (N_of_ascii c)); [lia|congruence|lia].
Qed.

#[global] Instance str_le_trans : Transitive str_le.
Proof.
  intros s1 s2 s3. unfold str_le, String.leb. intros H12 H23.
  pose proof (string_compare_trans_le s1 s2 s3) as H.
  destruct (String.compare s1 s2), (String.compare s2 s3), (String.compare s1 s3);
    try done; exfalso; apply H; congruence.
Qed.

#[global] Instance str_le_total : Total str_le.
Proof. intros s1 s2. apply String.leb_total. Qed.

#[global] Instance str_le_antisym : AntiSymm (=) str_le.
Proof. intros s1 s2. apply String.leb_antisym. Qed.

Lemma sorted_Sorted l : Sorted str_le (sorted l).
Proof. apply Sorted_merge_sort, _. Qed.

Lemma sorted_Permutation l : sorted l ≡ₚ l.
Proof. apply merge_sort_Permutation. Qed.

(** [sorted] of the keys of a dictionary: ascending, without repetition,
    and with exactly the keys. *)
Lemma sorted_keys_spec (d : gmap string nat) :
  let keys := sorted (elements (dom d)) in
  Sorted str_le keys /\ NoDup keys /\ (forall x, x ∈ keys <-> x ∈ dom d).
Proof.
  simpl. split; [apply sorted_Sorted|]. split.
  - rewrite sorted_Permutation. apply NoDup_elements.
  - intros x. rewrite sorted_Permutation. apply elem_of_elements.
Qed.

(** There is only one such list. *)
Lemma sorted_keys_unique (d : gmap string nat) (l : list string) :
  Sorted str_le l -> NoDup l -> (forall x, x ∈ l <-> x ∈ dom d) ->
  l = sorted (elements (dom d)).
Proof.
  intros Hs Hn Hd. destruct (sorted_keys_spec d) as (Hs' & Hn' & Hd').
  apply (Sorted_unique str_le); [done|done|].
  apply NoDup_Permutation; [done|done|]. intros x. by rewrite Hd, Hd'.
Qed.

(** ** Counting labels: [len(set(labels) & seen)] against [len(labels)] *)

Lemma size_list_to_set_le (l : list string) :
  (size (list_to_set l : gset string) <= length l)%nat.
Proof.
  induction l as [|x l IH].
  - rewrite list_to_set_nil, size_empty. simpl. lia.
  - rewrite list_to_set_cons, size_union_alt, size_singleton. simpl.
    pose proof (subseteq_size (list_to_set l ∖ {[x]}) (list_to_set l : gset string)
                  ltac:(set_solver)).
    lia.
Qed.

Lemma size_list_to_set_dup (l : list string) :
  ~ NoDup l -> (size (list_to_set l : gset string) < length l)%nat.
Proof.
  induction l as [|x l IH]; intros Hd.
  - destruct Hd. constructor.
  - rewrite list_to_set_cons. destruct (decide (x ∈ l)) as [Hx|Hx].
    + replace ({[x]} ∪ list_to_set l : gset string) with (list_to_set l : gset string)
        by (apply set_eq; set_solver).
      pose proof (size_list_to_set_le l). simpl. lia.
    + assert (~ NoDup l) as Hl by (intros ?; apply Hd; by constructor).
      specialize (IH Hl).
      rewrite size_union_alt, size_singleton. simpl.
      pose proof (subseteq_size (list_to_set l ∖ {[x]}) (list_to_set l : gset string)
                    ltac:(set_solver)).
      lia.
Qed.

(** A given label without annotation makes the overlap smaller than the
    list of given labels. *)
Lemma overlap_absent (labels : list string) (seen : gset string) x :
  x ∈ labels -> x ∉ seen ->
  (size ((list_to_set labels : gset string) ∩ seen) < length labels)%nat.
Proof.
  intros Hin Hout.
  assert ((list_to_set labels : gset string) ∩ seen ⊂ list_to_set labels) as Hsub.
  { split; [set_solver|]. intros Hsup. apply Hout.
    assert (x ∈ (list_to_set labels : gset string) ∩ seen) by (apply Hsup; set_solver).
    set_solver. }
  apply subset_size in Hsub. pose proof (size_list_to_set_le labels). lia.
Qed.

Lemma overlap_all_present (labels : list string) (seen : gset string) :
  (forall x, x ∈ labels -> x ∈ seen) ->
  (list_to_set labels : gset string) ∩ seen = list_to_set labels.
Proof. intros H. apply set_eq. set_solver. Qed.

(** ** Running the monad *)

Lemma run_bind {A B : Type} (m : M A) (f : A -> M B) g :
  (m ≫= f) g =
  match m g with
  | (inl e, g1, t1) => (inl e, g1, t1)
  | (inr a, g1, t1) => match f a g1 with (r, g2, t2) => (r, g2, t1 ++ t2) end
  end.
Proof. reflexivity. Qed.

Lemma run_bind_inr {A B : Type} (m : M A) (f : A -> M B) g a g1 t1 :
  m g = (inr a, g1, t1) ->
  (m ≫= f) g = let '(r, g2, t2) := f a g1 in (r, g2, t1 ++ t2).
Proof. intros H. by rewrite run_bind, H. Qed.

Lemma run_as_triple {A : Type} (r : (exn + A) * NpRandom.rng * list event) :
  r = (result r, rng_after r, trace r).
Proof. by destruct r as [[? ?] ?]. Qed.

(** The events of the first part of a sequence are events of the
    sequence, and so are those of the second part once the first has
    returned. *)
Lemma elem_of_trace_bind_l {A B : Type} (m : M A) (f : A -> M B) g e :
  e ∈ trace (m g) -> e ∈ trace ((m ≫= f) g).
Proof.
  rewrite run_bind. destruct (m g) as [[[x|a] g1] t1]; simpl; [done|].
  destruct (f a g1) as [[r g2] t2]. simpl. set_solver.
Qed.

Lemma elem_of_trace_bind_r {A B : Type} (m : M A) (f : A -> M B) g a g1 t1 e :
  m g = (inr a, g1, t1) -> e ∈ trace (f a g1) -> e ∈ trace ((m ≫= f) g).
Proof.
  intros H. rewrite (run_bind_inr _ _ _ _ _ _ H).
  destruct (f a g1) as [[r g2] t2]. simpl. set_solver.
Qed.

Lemma run_do_call w c g :
  raises w c = None -> do_call w c g = (inr tt, g, [Called c]).
Proof. intros H. unfold do_call. by rewrite H. Qed.

(** Step over the next call of a sequence: [H] says that this call returns,
    or [Hall] that every call of some kind does. *)
Ltac run_call H :=
  rewrite (run_bind_inr _ _ _ _ _ _ (run_do_call _ _ _ H)).
Ltac run_next_call Hall :=
  rewrite (run_bind_inr _ _ _ _ _ _ (run_do_call _ _ _ (Hall _))).

Lemma run_call_parse_voc_annotation w a i labels ie g :
  raises w (parse_voc_annotation a i labels ie) = None ->
  call_parse_voc_annotation w a i labels ie g =
  (inr (annotations w a i labels ie), g, [Called (parse_voc_annotation a i labels ie)]).
Proof. intros H. unfold call_parse_voc_annotation. by run_call H. Qed.

Lemma run_load_config w path g :
  raises w (open_config path) = None ->
  load_config w (Some (Argparse.Str path)) g
  = (inr (config_at w path), g, [Called (open_config path)]).
Proof. intros H. unfold load_config. by run_call H. Qed.

(** ** [create_training_instances] *)

Lemma slice_bound_inside n k : 0 <= k <= Z.of_nat n -> slice_bound n k = Z.to_nat k.
Proof.
  intros [H0 H1]. unfold slice_bound.
  destruct (Z.ltb_spec k 0); lia.
Qed.

(** Every event of [create_training_instances] is a [dataset_event],
    whether the annotation parser returns or raises. *)
Lemma create_training_instances_events w ta ti va vi labels ie g :
  Forall dataset_event (trace (create_training_instances w ta ti va vi labels ie g)).
Proof.
  unfold create_training_instances, call_parse_voc_annotation, shuffle_in_place.
  rewrite !run_bind. unfold do_call, print, trace. simpl.
  destruct (raises w (parse_voc_annotation ta ti labels ie)); simpl.
  { by repeat constructor. }
  destruct (annotations w ta ti labels ie) as [l seen]. simpl.
  destruct (path_exists w va).
  - rewrite !run_bind. simpl.
    destruct (raises w (parse_voc_annotation va vi labels ie)); simpl.
    { by repeat constructor. }
    destruct (annotations w va vi labels ie) as [l' seen']. simpl.
    destruct (0 <? length labels)%nat; [destruct (size _ <? length labels)%nat|]; simpl;
      by repeat constructor.
  - rewrite !run_bind. simpl. destruct (NpRandom.shuffle l g) as [l' g']. simpl.
    destruct (0 <? length labels)%nat; [destruct (size _ <? length labels)%nat|]; simpl;
      by repeat constructor.
Qed.

Section Dataset.

Variables (w : World) (ta ti va vi : string) (labels : list string) (ie : bool).
Variable g : NpRandom.rng.

(** The annotation parser returns, on the training folder and on the
    validation folder. *)
Hypothesis parser_returns :
  forall a i, raises w (parse_voc_annotation a i labels ie) = None.

Let parsed : list instance := fst (annotations w ta ti labels ie).
Let seen : gmap string nat := snd (annotations w ta ti labels ie).
Let run := create_training_instances w ta ti va vi labels ie g.

(** The whole run of [create_training_instances]: result, generator and
    trace. *)
Lemma create_training_instances_run :
  let k := PyFloat.int_0_8_times (Z.of_nat (length parsed)) in
  let shuffled := NpRandom.shuffle parsed g in
  let overlap := (list_to_set labels : gset string) ∩ dom seen in
  run =
  (inr
     (if (0 <? length labels)%nat && (size overlap <? length labels)%nat
      then (None, None, None)
      else
        (Some (if path_exists w va then parsed else slice_to (fst shuffled) k),
         Some (if path_exists w va then fst (annotations w va vi labels ie)
               else slice_from (fst shuffled) k),
         Some (if (0 <? length labels)%nat then labels else sorted (elements (dom seen))))),
   (if path_exists w va then g else snd shuffled),
   [Called (parse_voc_annotation ta ti labels ie)]
   ++ (if path_exists w va then
         [Printed (text "valid_annot_folder not exists. Spliting the trainining set.");
          Called (parse_voc_annotation va vi labels ie)]
       else [Called (np_random_shuffle parsed)])
   ++ (if (0 <? length labels)%nat then
         [Printed (line_seen seen); Printed (line_given labels);
          Printed (line_overlap overlap)]
         ++ (if (size overlap <? length labels)%nat then
               [Printed (text "Some labels have no annotations! Please revise the list of labels in the config.json.")]
             else [])
       else [Printed (text "No labels are provided. Train on all seen labels.")])).
Proof.
  unfold run, parsed, seen, create_training_instances. simpl.
  rewrite (run_bind_inr _ _ _ _ _ _ (run_call_parse_voc_annotation _ _ _ _ _ _ (parser_returns _ _))).
  destruct (annotations w ta ti labels ie) as [l d]. simpl.
  destruct (path_exists w va).
  - unfold mbind, M_bind, print at 1.
    rewrite (run_call_parse_voc_annotation _ _ _ _ _ _ (parser_returns _ _)).
    destruct (annotations w va vi labels ie) as [l' d']. simpl.
    destruct (0 <? length labels)%nat; simpl; [|done].
    by destruct (size _ <? length labels)%nat.
  - unfold mbind, M_bind, shuffle_in_place.
    destruct (NpRandom.shuffle l g) as [l' g']. simpl.
    destruct (0 <? length labels)%nat; simpl; [|done].
    by destruct (size _ <? length labels)%nat.
Qed.

(** C1.  For every label list that contains at least one label absent from
    the labels observed in the training annotations,
    [create_training_instances] returns [None] for all three of its outputs
    (whenever the annotation parser returns). *)
Theorem create_training_instances_absent_label x :
  x ∈ labels -> x ∉ dom seen -> result run = inr (None, None, None).
Proof.
  intros Hin Hout. rewrite create_training_instances_run. unfold result. simpl.
  pose proof (overlap_absent labels _ x Hin Hout) as Hlt.
  assert (0 < length labels)%nat as Hpos by lia.
  apply Nat.ltb_lt in Hlt, Hpos. by rewrite Hlt, Hpos.
Qed.

(** C3.  When the configured label list is empty, the resolved labels that
    [create_training_instances] returns are [sorted] of the keys of the seen
    labels: ascending, without repetition, and exactly the labels observed
    in the training annotations. *)
Theorem create_training_instances_no_labels :
  labels = [] ->
  exists train_ints valid_ints resolved,
    result run = inr (Some train_ints, Some valid_ints, Some resolved) /\
    resolved = sorted (elements (dom seen)) /\
    Sorted str_le resolved /\ NoDup resolved /\
    (forall x, x ∈ resolved <-> x ∈ dom seen).
Proof.
  intros Hnil. rewrite create_training_instances_run. unfold result. simpl.
  rewrite Hnil. simpl.
  do 3 eexists. split; [reflexivity|]. split; [reflexivity|].
  apply sorted_keys_spec.
Qed.

(** A non-empty list of distinct labels that are all observed is returned
    unchanged. *)
Lemma create_training_instances_present_labels :
  labels <> [] -> NoDup labels -> (forall x, x ∈ labels -> x ∈ dom seen) ->
  exists train_ints valid_ints,
    result run = inr (Some train_ints, Some valid_ints, Some labels).
Proof.
  intros Hne Hnd Hall. rewrite create_training_instances_run. unfold result. simpl.
  rewrite (overlap_all_present _ _ Hall), (size_list_to_set _ Hnd), Nat.ltb_irrefl.
  rewrite andb_false_r.
  destruct labels as [|x l]; [done|]. simpl. eauto.
Qed.

(** A list in which a label is repeated is rejected, whatever was
    observed: the overlap is a set, the list is not. *)
Lemma create_training_instances_repeated_label :
  ~ NoDup labels -> result run = inr (None, None, None).
Proof.
  intros Hd. rewrite create_training_instances_run. unfold result. simpl.
  pose proof (size_list_to_set_dup labels Hd) as Hlt.
  pose proof (subseteq_size ((list_to_set labels : gset string) ∩ dom seen)
                (list_to_set labels) ltac:(set_solver)) as Hle.
  assert (size ((list_to_set labels : gset string) ∩ dom seen) < length labels)%nat
    as Hlt' by lia.
  assert (0 < length labels)%nat as Hpos by lia.
  apply Nat.ltb_lt in Hlt', Hpos. by rewrite Hlt', Hpos.
Qed.

(** C5.  When the validation annotation folder does not exist and the run
    is not aborted, the training list is shuffled and split at
    [floor(0.8 * n)]: the training output has [floor(4n/5)] instances, the
    validation output the remaining ones, together they are a rearrangement
    of the parsed list, and they share no instance when the parsed list has
    no repetition.  [n] is below 2^50, the range in which the float product
    [0.8 * n] truncates to the floor. *)
Theorem split_without_validation_folder train_ints valid_ints resolved :
  path_exists w va = false ->
  let n := Z.of_nat (length parsed) in
  let shuffled := fst (NpRandom.shuffle parsed g) in
  n < 2 ^ 50 ->
  result run = inr (Some train_ints, Some valid_ints, Some resolved) ->
  Called (np_random_shuffle parsed) ∈ trace run /\
  shuffled ≡ₚ parsed /\
  train_ints = take (Z.to_nat (4 * n / 5)) shuffled /\
  valid_ints = drop (Z.to_nat (4 * n / 5)) shuffled /\
  Z.of_nat (length train_ints) = 4 * n / 5 /\
  Z.of_nat (length valid_ints) = n - 4 * n / 5 /\
  train_ints ++ valid_ints ≡ₚ parsed /\
  (NoDup parsed -> forall x, x ∈ train_ints -> x ∉ valid_ints).
Proof.
  intros Hva n shuffled Hn Hres.
  rewrite create_training_instances_run in Hres |- *.
  unfold result, trace in *. simpl in Hres |- *. rewrite Hva in Hres |- *.
  fold shuffled in Hres. fold n in Hres.
  assert (Hk : PyFloat.int_0_8_times n = 4 * n / 5) by (apply int_0_8_times_floor; lia).
  rewrite Hk in Hres.
  assert (Hlen : length shuffled = length parsed) by apply shuffle_length.
  assert (Hperm : shuffled ≡ₚ parsed) by apply shuffle_Permutation.
  assert (Hb : 0 <= 4 * n / 5 <= n).
  { split; [apply Z.div_pos; lia|]. apply Z.div_le_upper_bound; lia. }
  assert (Hsb : slice_bound (length shuffled) (4 * n / 5) = Z.to_nat (4 * n / 5)).
  { apply slice_bound_inside. rewrite Hlen. exact Hb. }
  unfold slice_to, slice_from in Hres. rewrite Hsb in Hres.
  destruct ((0 <? length labels)%nat && _); [discriminate|].
  injection Hres as <- <- _.
  split; [set_solver|]. split; [done|]. split; [done|]. split; [done|].
  split; [rewrite length_take; lia|].
  split; [rewrite length_drop; lia|].
  split; [by rewrite take_drop|].
  intros Hnd. rewrite <- Hperm, <- (take_drop (Z.to_nat (4 * n / 5)) shuffled) in Hnd.
  apply NoDup_app in Hnd as (_ & Hdis & _). exact Hdis.
Qed.

(** C10.  When the validation annotation folder exists,
    [create_training_instances] never calls [np.random.shuffle], leaves the
    generator untouched, and, unless it returns the three [None], returns
    the training list exactly as the annotation parser produced it (and the
    validation list as parsed from the validation folder). *)
Theorem validation_folder_keeps_parser_order :
  path_exists w va = true ->
  (forall x, Called (np_random_shuffle x) ∉ trace run) /\
  rng_after run = g /\
  (result run = inr (None, None, None) \/
   exists resolved,
     result run = inr (Some parsed, Some (fst (annotations w va vi labels ie)), Some resolved)).
Proof.
  intros Hva. rewrite create_training_instances_run.
  unfold result, trace, rng_after. simpl. rewrite Hva.
  split; [|split; [done|]].
  - intros x Hx.
    destruct (0 <? length labels)%nat; [destruct (size _ <? length labels)%nat|];
      set_solver.
  - destruct ((0 <? length labels)%nat && _); eauto.
Qed.

End Dataset.

(** On the sample data set, the labels dog and bird: bird is not observed. *)
Lemma create_training_instances_absent_label_witness :
  result (create_training_instances (sample_world ["dog"; "bird"] true false)
            "ann/" "img/" "val_ann/" "val/" ["dog"; "bird"] false sample_rng)
  = inr (None, None, None).
Proof.
  apply (create_training_instances_absent_label
           (sample_world ["dog"; "bird"] true false)
           "ann/" "img/" "val_ann/" "val/" ["dog"; "bird"] false sample_rng
           ltac:(intros a i; reflexivity) "bird").
  - compute_done.
  - compute_done.
Defined.

(** On the sample data set, without configured labels. *)
Lemma create_training_instances_no_labels_witness :
  exists train_ints valid_ints resolved,
    result (create_training_instances (sample_world [] false false)
              "ann/" "img/" "val_ann/" "val/" [] false sample_rng)
    = inr (Some train_ints, Some valid_ints, Some resolved) /\
    resolved = sorted (elements (dom sample_seen)) /\
    Sorted str_le resolved /\ NoDup resolved /\
    (forall x, x ∈ resolved <-> x ∈ dom sample_seen).
Proof.
  apply (create_training_instances_no_labels (sample_world [] false false)
           "ann/" "img/" "val_ann/" "val/" [] false sample_rng).
  - intros a i. reflexivity.
  - reflexivity.
Defined.

(** The end-to-end scenario of the specification: no label configured, the
    labels cat and dog observed. *)
Example resolved_labels_cat_dog :
  match result (create_training_instances (sample_world [] false false)
                  "ann/" "img/" "val_ann/" "val/" [] false sample_rng) with
  | inr (_, _, resolved) => resolved
  | inl _ => None
  end = Some ["cat"; "dog"].
Proof. vm_compute. reflexivity. Qed.

(** C4, evaluated on the labels cat, cat with cat observed: every given
    label is present in the observed labels, and [create_training_instances]
    returns the three [None] instead of the given list. *)
Theorem create_training_instances_cat_cat :
  (forall x, x ∈ ["cat"; "cat"] -> x ∈ dom sample_seen) /\
  result (create_training_instances (sample_world ["cat"; "cat"] true false)
            "ann/" "img/" "val_ann/" "val/" ["cat"; "cat"] false sample_rng)
  = inr (None, None, None).
Proof.
  split; [|vm_compute; reflexivity].
  intros x Hx. assert (x = "cat") as -> by set_solver. compute_done.
Qed.

(** On the sample data set without validation folder: five images, split
    four to one. *)
Lemma split_without_validation_folder_witness :
  let w := sample_world [] false false in
  let shuffled := fst (NpRandom.shuffle sample_train_ints sample_rng) in
  let train_ints := take 4 shuffled in
  let valid_ints := drop 4 shuffled in
  Called (np_random_shuffle sample_train_ints)
    ∈ trace (create_training_instances w "ann/" "img/" "val_ann/" "val/" [] false sample_rng) /\
  shuffled ≡ₚ sample_train_ints /\
  train_ints = take (Z.to_nat (4 * 5 / 5)) shuffled /\
  valid_ints = drop (Z.to_nat (4 * 5 / 5)) shuffled /\
  Z.of_nat (length train_ints) = 4 * 5 / 5 /\
  Z.of_nat (length valid_ints) = 5 - 4 * 5 / 5 /\
  train_ints ++ valid_ints ≡ₚ sample_train_ints /\
  (NoDup sample_train_ints -> forall x, x ∈ train_ints -> x ∉ valid_ints).
Proof.
  intros w shuffled train_ints valid_ints.
  apply (split_without_validation_folder w "ann/" "img/" "val_ann/" "val/" [] false
           sample_rng ltac:(intros a i; reflexivity) train_ints valid_ints ["cat"; "dog"]).
  - reflexivity.
  - vm_compute. reflexivity.
  - vm_compute. reflexivity.
Defined.

(** In the sample split the four training images and the validation image
    are these. *)
Example split_sample :
  match result (create_training_instances (sample_world [] false false)
                  "ann/" "img/" "val_ann/" "val/" [] false sample_rng) with
  | inr (Some train_ints, Some valid_ints, _) =>
      (filename <$> train_ints, filename <$> valid_ints)
  | _ => ([], [])
  end = (["img/5.jpg"; "img/4.jpg"; "img/3.jpg"; "img/2.jpg"], ["img/1.jpg"]).
Proof. vm_compute. reflexivity. Qed.

(** On the sample data set with a validation folder. *)
Lemma validation_folder_keeps_parser_order_witness :
  let w := sample_world ["dog"; "cat"] true false in
  let run := create_training_instances w "ann/" "img/" "val_ann/" "val/"
               ["dog"; "cat"] false sample_rng in
  (forall x, Called (np_random_shuffle x) ∉ trace run) /\
  rng_after run = sample_rng /\
  (result run = inr (None, None, None) \/
   exists resolved,
     result run = inr (Some sample_train_ints, Some sample_valid_ints, Some resolved)).
Proof.
  intros w run.
  apply (validation_folder_keeps_parser_order w "ann/" "img/" "val_ann/" "val/"
           ["dog"; "cat"] false sample_rng).
  - intros a i. reflexivity.
  - reflexivity.
Defined.

Example validation_folder_sample_order :
  result (create_training_instances (sample_world ["dog"; "cat"] true false)
            "ann/" "img/" "val_ann/" "val/" ["dog"; "cat"] false sample_rng)
  = inr (Some sample_train_ints, Some sample_valid_ints, Some ["dog"; "cat"]).
Proof. vm_compute. reflexivity. Qed.

(** ** [create_callbacks] *)

(** C8.  [create_callbacks] returns exactly two callbacks: an early stopping
    on [val_loss] with minimum delta 0.001, patience 3 and mode min, and a
    checkpoint at the given path on [val_loss], saving the best only, mode
    min, every epoch. *)
Theorem create_callbacks_spec (saved_weights_name : string) :
  exists early_stop checkpoint,
    create_callbacks saved_weights_name
    = [early_stopping early_stop; model_checkpoint checkpoint] /\
    EarlyStopping.monitor early_stop = "val_loss" /\
    EarlyStopping.min_delta early_stop = (1 # 1000)%Q /\
    EarlyStopping.patience early_stop = 3 /\
    EarlyStopping.mode early_stop = "min" /\
    ModelCheckpoint.filepath checkpoint = saved_weights_name /\
    ModelCheckpoint.monitor checkpoint = "val_loss" /\
    ModelCheckpoint.save_best_only checkpoint = true /\
    ModelCheckpoint.mode checkpoint = "min" /\
    ModelCheckpoint.period checkpoint = 1.
Proof. do 2 eexists. split; [reflexivity|]. repeat split. Qed.

(** ** [_main_] *)

(** The loop that prints one line per label. *)
Lemma run_label_lines (ls : list string) (aps : list (nat * Q)) g :
  (forall item, item ∈ aps -> (fst item < length ls)%nat) ->
  for_each aps (fun item =>
    label ← getitem (Some ls) (fst item);
    print (label_score label (snd item))) g
  = (inr tt, g,
     (fun item => Printed (label_score (default EmptyString (ls !! fst item)) (snd item)))
       <$> aps).
Proof.
  revert g. induction aps as [|[i ap] aps IH]; intros g Hin; [done|].
  destruct (lookup_lt_is_Some_2 ls i) as [s Hs].
  { apply (Hin (i, ap)). set_solver. }
  assert ((getitem (Some ls) i ≫= fun label => print (label_score label ap)) g
          = (inr tt, g, [Printed (label_score s ap)])) as Hline.
  { rewrite run_bind. unfold getitem. by rewrite Hs. }
  cbn [for_each]. rewrite (run_bind_inr _ _ _ _ _ _ Hline).
  rewrite IH by (intros item Hitem; apply Hin; set_solver).
  cbn [fmap list_fmap fst snd]. by rewrite Hs.
Qed.

Section Main.

Variables (w : World) (args : Argparse.Namespace) (path : string) (g : NpRandom.rng).

(** The command line gave the path of a configuration file, which opens. *)
Hypothesis conf_given : args !! "conf" = Some (Argparse.Str path).
Hypothesis config_opens : raises w (open_config path) = None.

Let config : Config.t := config_at w path.

(** The dataset preparation of the run, lines 95 to 102. *)
Let dataset :=
  create_training_instances w
    (Config.train_annot_folder (Config.train config))
    (Config.train_image_folder (Config.train config))
    (Config.valid_annot_folder (Config.valid config))
    (Config.valid_image_folder (Config.valid config))
    (Config.labels (Config.model config))
    (Config.include_empty (Config.train config)) g.

Lemma dataset_events : Forall dataset_event (trace dataset).
Proof. apply create_training_instances_events. Qed.

(** When [create_training_instances] returns the three [None], [_main_]
    does not test them: it calls the [BatchGenerator] constructor with
    [None] for the instances and the labels. *)
Lemma main_ignores_sentinel :
  result dataset = inr (None, None, None) ->
  Called (BatchGenerator_init (train_generator config None None)) ∈ trace (_main_ w args g).
Proof.
  intros Hcti. unfold _main_. rewrite conf_given.
  eapply elem_of_trace_bind_r; [apply (run_load_config _ _ _ config_opens)|].
  eapply elem_of_trace_bind_r.
  { rewrite (run_as_triple (create_training_instances _ _ _ _ _ _ _ _)).
    fold config dataset. rewrite Hcti. reflexivity. }
  cbv beta iota zeta.
  apply elem_of_trace_bind_l. unfold do_call, trace. simpl.
  by apply list_elem_of_singleton.
Qed.

(** In that case the run ends in an exception, at the latest at
    [len(labels)], and the model factory is never called. *)
Lemma main_without_labels_builds_no_model :
  result dataset = inr (None, None, None) ->
  (exists e, result (_main_ w args g) = inl e) /\
  forall a, Called (create_yolov3_model a) ∉ trace (_main_ w args g).
Proof.
  intros Hcti. pose proof dataset_events as Hev.
  unfold _main_. rewrite conf_given.
  rewrite (run_bind_inr _ _ _ _ _ _ (run_load_config _ _ _ config_opens)).
  fold config dataset.
  destruct dataset as [[r g1] t1] eqn:Hrun.
  unfold result in Hcti. simpl in Hcti, Hev. subst r.
  rewrite (run_bind_inr _ _ _ _ _ _ Hrun). cbv beta iota zeta.
  assert (forall a, Called (create_yolov3_model a) ∉ t1) as Ht1.
  { intros a Ha. rewrite Forall_forall in Hev. exact (Hev _ Ha). }
  rewrite !run_bind. unfold do_call, len, raise. simpl.
  destruct (raises w (BatchGenerator_init (train_generator config None None))); simpl.
  - split; [eauto|]. intros a. specialize (Ht1 a). set_solver.
  - destruct (raises w (BatchGenerator_init (valid_generator config None None))); simpl.
    + split; [eauto|]. intros a. specialize (Ht1 a). set_solver.
    + split; [eauto|]. intros a. specialize (Ht1 a). set_solver.
Qed.

(** C6.  In a run of [_main_] whose dataset preparation succeeds and whose
    generators are constructed, the model factory is called with a warmup
    batch count that is zero when a file exists at the saved-weights path and
    [warmup_epochs * (train_times * len(train_generator)
                      + valid_times * len(valid_generator))] otherwise. *)
Theorem warmup_batches_of_main train_ints valid_ints labels :
  (forall gen, raises w (BatchGenerator_init gen) = None) ->
  result dataset = inr (Some train_ints, Some valid_ints, Some labels) ->
  exists a,
    Called (create_yolov3_model a) ∈ trace (_main_ w args g) /\
    Yolo.warmup_batches a =
      if path_exists w (Config.saved_weights_name (Config.train config)) then 0
      else Config.warmup_epochs (Config.train config)
           * (Config.train_times (Config.train config)
                * generator_len w (train_generator config (Some train_ints) (Some labels))
              + Config.valid_times (Config.valid config)
                * generator_len w (valid_generator config (Some valid_ints) (Some labels))).
Proof.
  intros Hgen Hcti. eexists. split.
  - unfold _main_. rewrite conf_given.
    eapply elem_of_trace_bind_r; [apply (run_load_config _ _ _ config_opens)|].
    eapply elem_of_trace_bind_r.
    { rewrite (run_as_triple (create_training_instances _ _ _ _ _ _ _ _)).
      fold config dataset. rewrite Hcti. reflexivity. }
    cbv beta iota zeta.
    eapply elem_of_trace_bind_r; [apply run_do_call, Hgen|].
    eapply elem_of_trace_bind_r; [apply run_do_call, Hgen|].
    eapply elem_of_trace_bind_r; [reflexivity|].
    apply elem_of_trace_bind_l. unfold do_call, trace. simpl.
    by apply list_elem_of_singleton.
  - reflexivity.
Qed.

(** C9.  In a run of [_main_] in which no collaborator raises and the
    dataset preparation succeeds, the evaluation is reached; when the
    mapping of average precisions is empty the run ends with
    [ZeroDivisionError] and prints no mAP; when it is not empty (and its
    label indices are indices of the label list) the run ends normally and
    its last line is the mAP, the sum of the average precisions divided by
    their number. *)
Theorem mAP_of_main train_ints valid_ints labels :
  (forall c, raises w c = None) ->
  result dataset = inr (Some train_ints, Some valid_ints, Some labels) ->
  let generator := valid_generator config (Some valid_ints) (Some labels) in
  let average_precisions := average_precisions_of w infer_model generator in
  let run := _main_ w args g in
  Called (evaluate infer_model generator) ∈ trace run /\
  (average_precisions = [] ->
     result run = inl ZeroDivisionError /\ forall m, Printed (mAP_score m) ∉ trace run) /\
  (average_precisions <> [] ->
     (forall item, item ∈ average_precisions -> (fst item < length labels)%nat) ->
     result run = inr tt /\
     last (trace run)
     = Some (Printed (mAP_score (sum (snd <$> average_precisions)
                                 / inject_Z (Z.of_nat (length average_precisions)))%Q))).
Proof.
  intros Hr Hcti generator aps run. pose proof dataset_events as Ht1.
  unfold run, _main_. rewrite conf_given.
  rewrite (run_bind_inr _ _ _ _ _ _ (run_load_config _ _ _ config_opens)).
  fold config dataset.
  destruct dataset as [[r g1] t1] eqn:Hrun.
  unfold result in Hcti. simpl in Hcti, Ht1. subst r.
  rewrite (run_bind_inr _ _ _ _ _ _ Hrun). cbv beta iota zeta.
  do 2 run_next_call Hr.
  rewrite (run_bind_inr (len (Some labels)) _ _ _ _ _ eq_refl).
  run_next_call Hr.
  assert (exists t,
    (if path_exists w (Config.saved_weights_name (Config.train config))
     then print (text "Loading pretrained weights.");;
          do_call w (load_weights train_model (Config.saved_weights_name (Config.train config)))
     else do_call w (load_weights train_model "backend.h5")) g1 = (inr tt, g1, t)
    /\ Forall (fun e => match e with Printed (text _) | Called _ => True | _ => False end) t)
    as (t & Hload & Ht).
  { destruct (path_exists w _).
    - eexists. split.
      + rewrite (run_bind_inr (print _) _ _ _ _ _ eq_refl), (run_do_call _ _ _ (Hr _)).
        reflexivity.
      + by repeat constructor.
    - eexists. split; [apply run_do_call, Hr|]. by repeat constructor. }
  rewrite (run_bind_inr _ _ _ _ _ _ Hload).
  do 5 run_next_call Hr.
  fold generator. fold aps. clearbody aps.
  destruct ((for_each aps _ ≫= _) g1) as [[r g2] t2] eqn:Hrep.
  unfold result, trace. simpl.
  split; [set_solver|]. split.
  - intros ->. rewrite run_bind in Hrep. simpl in Hrep.
    injection Hrep as <- <- <-.
    split; [done|]. intros m Hm.
    set (no_mAP := fun e => match e with Printed (mAP_score _) => False | _ => True end).
    assert (Forall no_mAP t1) as Hn1
      by (eapply Forall_impl; [exact Ht1|]; by intros [[]|[]]).
    assert (Forall no_mAP t) as Hn
      by (eapply Forall_impl; [exact Ht|]; by intros [[]|[]]).
    revert Hm. apply (proj1 (Forall_forall no_mAP _)).
    repeat first [ apply Forall_nil_2 | apply Forall_cons_2; [exact I|]
                 | apply Forall_app_2; [first [exact Hn1 | exact Hn]|] ].
  - intros Hne Hin.
    rewrite (run_bind_inr _ _ _ _ _ _ (run_label_lines _ _ _ Hin)) in Hrep.
    assert ((Z.of_nat (length aps) =? 0) = false) as Hlen.
    { apply Z.eqb_neq. destruct aps; [done|]. simpl. lia. }
    rewrite run_bind in Hrep. unfold truediv in Hrep. rewrite Hlen in Hrep.
    simpl in Hrep. injection Hrep as <- <- <-.
    split; [done|].
    rewrite !app_comm_cons, !app_assoc. apply last_snoc.
Qed.

End Main.

(** On the sample run without saved weights. *)
Lemma warmup_batches_of_main_witness :
  let w := sample_world [] false false in
  let shuffled := fst (NpRandom.shuffle sample_train_ints sample_rng) in
  exists a,
    Called (create_yolov3_model a) ∈ trace (_main_ w sample_args sample_rng) /\
    Yolo.warmup_batches a =
      if path_exists w "weights.h5" then 0
      else 3 * (8 * generator_len w (train_generator (sample_config [])
                                       (Some (take 4 shuffled)) (Some ["cat"; "dog"]))
                + 1 * generator_len w (valid_generator (sample_config [])
                                         (Some (drop 4 shuffled)) (Some ["cat"; "dog"]))).
Proof.
  intros w shuffled.
  apply (warmup_batches_of_main w sample_args "config.json" sample_rng eq_refl eq_refl
           (take 4 shuffled) (drop 4 shuffled) ["cat"; "dog"]).
  - intros gen. reflexivity.
  - vm_compute. reflexivity.
Defined.

(** The warmup count handed to the model factory in the sample run:
    [3 * (8 * 2 + 1 * 1)] without saved weights, 0 with them. *)
Example warmup_batches_sample :
  warmup_batches_called (trace (_main_ (sample_world [] false false) sample_args sample_rng))
  = [51]
  /\ warmup_batches_called (trace (_main_ (sample_world [] false true) sample_args sample_rng))
     = [0].
Proof. split; vm_compute; reflexivity. Qed.

(** C2, evaluated on the labels dog, bird with cat and dog observed: after
    the diagnostic of [create_training_instances], [_main_] goes on to call
    the [BatchGenerator] constructor twice, with [None] for the instances
    and the labels, and only then ends, with the [TypeError] of
    [len(labels)]. *)
Theorem main_label_mismatch_sample :
  let w := sample_world ["dog"; "bird"] true false in
  let config := sample_config ["dog"; "bird"] in
  let run := __main__ w ["-c"; "config.json"] sample_rng in
  trace run =
    [ Called (open_config "config.json");
      Called (parse_voc_annotation "ann/" "img/" ["dog"; "bird"] false);
      Printed (text "valid_annot_folder not exists. Spliting the trainining set.");
      Called (parse_voc_annotation "val_ann/" "val/" ["dog"; "bird"] false);
      Printed (line_seen sample_seen);
      Printed (line_given ["dog"; "bird"]);
      Printed (line_overlap {[ "dog" ]});
      Printed (text "Some labels have no annotations! Please revise the list of labels in the config.json.");
      Called (BatchGenerator_init (train_generator config None None));
      Called (BatchGenerator_init (valid_generator config None None)) ]
  /\ result run = inl TypeError.
Proof. split; vm_compute; reflexivity. Qed.

(** On the sample run, whose evaluation returns two average precisions. *)
Lemma mAP_of_main_witness :
  let w := sample_world [] false false in
  let shuffled := fst (NpRandom.shuffle sample_train_ints sample_rng) in
  let generator :=
    valid_generator (sample_config []) (Some (drop 4 shuffled)) (Some ["cat"; "dog"]) in
  let average_precisions := average_precisions_of w infer_model generator in
  let run := _main_ w sample_args sample_rng in
  Called (evaluate infer_model generator) ∈ trace run /\
  (average_precisions = [] ->
     result run = inl ZeroDivisionError /\ forall m, Printed (mAP_score m) ∉ trace run) /\
  (average_precisions <> [] ->
     (forall item, item ∈ average_precisions -> (fst item < length ["cat"; "dog"])%nat) ->
     result run = inr tt /\
     last (trace run)
     = Some (Printed (mAP_score (sum (snd <$> average_precisions)
                                 / inject_Z (Z.of_nat (length average_precisions)))%Q))).
Proof.
  intros w shuffled.
  apply (mAP_of_main w sample_args "config.json" sample_rng eq_refl eq_refl
           (take 4 shuffled) (drop 4 shuffled) ["cat"; "dog"]).
  - intros c. reflexivity.
  - vm_compute. reflexivity.
Defined.

(** The report of the sample run: one line per label, then the mean,
    [(1/2 + 3/4) / 2]. *)
Example report_sample :
  drop 13 (trace (_main_ (sample_world [] false false) sample_args sample_rng))
  = [ Printed (label_score "cat" (1 # 2)); Printed (label_score "dog" (3 # 4));
      Printed (mAP_score ((0 + (1 # 2) + (3 # 4)) / inject_Z 2)%Q) ].
Proof. vm_compute. reflexivity. Qed.

(** ** The command line *)

(** The forms in which [argparse] accepts the value of the flag. *)
Example parse_args_forms :
  let conf argv :=
    match Argparse.parse_args argparser argv with
    | inr ns => inr (ns !! "conf")
    | inl e => inl e
    end in
  conf ["-c"; "config.json"] = inr (Some (Argparse.Str "config.json")) /\
  conf ["--conf"; "config.json"] = inr (Some (Argparse.Str "config.json")) /\
  conf ["--conf=config.json"] = inr (Some (Argparse.Str "config.json")) /\
  conf ["-cconfig.json"] = inr (Some (Argparse.Str "config.json")) /\
  conf ["--co"; "config.json"] = inr (Some (Argparse.Str "config.json")) /\
  conf ["-c"; "a.json"; "-c"; "b.json"] = inr (Some (Argparse.Str "b.json")) /\
  conf ["-c"] = inl (SystemExit 2) /\
  conf ["-c"; "-x"] = inl (SystemExit 2) /\
  conf ["config.json"] = inl (SystemExit 2) /\
  conf ["--verbose"] = inl (SystemExit 2) /\
  conf ["-h"] = inl (SystemExit 0) /\
  conf ["config.json"; "--help"] = inl (SystemExit 0).
Proof. repeat split. Qed.

(** C7 does not hold: the empty command line omits the configuration
    flag, and parsing returns a namespace, in which [conf] is [None]. *)
Lemma parse_args_without_conf :
  Argparse.parse_args argparser [] = inr ∅ /\
  (∅ : Argparse.Namespace) !! "conf" = None.
Proof. split; reflexivity. Qed.

(** The value of [-c] or [--conf] is the next argument, when that argument
    is not read as an option. *)
Lemma parse_args_value (flag path : string) :
  flag = "-c" \/ flag = "--conf" ->
  Argparse.parse_optional argparser path = Argparse.positional ->
  Argparse.parse_args argparser [flag; path] = inr {[ "conf" := Argparse.Str path ]}.
Proof.
  intros Hflag Hpos.
  assert (String.eqb path "--" = false) as Hne.
  { destruct (String.eqb_spec path "--") as [->|]; [discriminate Hpos|done]. }
  unfold Argparse.parse_args.
  destruct Hflag as [-> | ->].
  - cbn [Argparse.read_all].
    replace (String.eqb "-c" "--") with false by reflexivity.
    replace (Argparse.parse_optional argparser "-c") with
      (Argparse.optional (Argparse.assoc "-c" (Argparse.option_table argparser)) "-c" None)
      by reflexivity.
    rewrite Hne, Hpos. simpl. unfold Argparse.get_values. by rewrite Hne.
  - cbn [Argparse.read_all].
    replace (String.eqb "--conf" "--") with false by reflexivity.
    replace (Argparse.parse_optional argparser "--conf") with
      (Argparse.optional (Argparse.assoc "--conf" (Argparse.option_table argparser))
         "--conf" None)
      by reflexivity.
    rewrite Hne, Hpos. simpl. unfold Argparse.get_values. by rewrite Hne.
Qed.

(** C7, amended.  The parser declares one flag of its own, [-c/--conf],
    taking the path of the configuration file, and the flag is optional:
    given with a path it stores the path; on the empty command line parsing
    succeeds with [conf] absent, [_main_] is entered, and it ends in the
    [TypeError] of [open(None)]. *)
Theorem conf_flag_is_optional w g path :
  Argparse.parse_optional argparser path = Argparse.positional ->
  Argparse.actions argparser
  = Argparse.actions (Argparse.new_parser (Argparse.description argparser))
    ++ [ {| Argparse.option_strings := ["-c"; "--conf"]; Argparse.dest := "conf";
            Argparse.kind := Argparse.store_action; Argparse.required := false;
            Argparse.help := "path to configuration file" |} ] /\
  Argparse.parse_args argparser ["-c"; path] = inr {[ "conf" := Argparse.Str path ]} /\
  Argparse.parse_args argparser ["--conf"; path] = inr {[ "conf" := Argparse.Str path ]} /\
  Argparse.parse_args argparser [] = inr ∅ /\
  __main__ w [] g = _main_ w ∅ g /\
  result (_main_ w ∅ g) = inl TypeError /\
  trace (_main_ w ∅ g) = [].
Proof.
  intros Hpos.
  split; [reflexivity|].
  split; [apply parse_args_value; auto|].
  split; [apply parse_args_value; auto|].
  repeat split.
Qed.

(** With the path config.json. *)
Lemma conf_flag_is_optional_witness :
  Argparse.parse_args argparser ["-c"; "config.json"]
  = inr {[ "conf" := Argparse.Str "config.json" ]} /\
  Argparse.parse_args argparser [] = inr ∅ /\
  result (_main_ (sample_world [] false false) ∅ sample_rng) = inl TypeError.
Proof.
  destruct (conf_flag_is_optional (sample_world [] false false) sample_rng
              "config.json" eq_refl)
    as (_ & H1 & _ & H2 & _ & H3 & _).
  exact (conj H1 (conj H2 H3)).
Defined.

(** * Further properties *)

(** ** More on [create_training_instances] *)

(** An event that differs from every event of an explicit list is not in
    the list. *)
Ltac not_listed :=
  let H := fresh in
  intros H; simpl in H;
  repeat (apply elem_of_cons in H as [H|H]; [discriminate H|]);
  apply elem_of_nil in H; destruct H.

(** An event is in an explicit list that shows it. *)
Ltac listed :=
  solve [simpl; repeat first [apply list_elem_of_here | apply list_elem_of_further]].

Section DatasetMore.

Variables (w : World) (ta ti va vi : string) (labels : list string) (ie : bool).
Variable g : NpRandom.rng.

Hypothesis parser_returns :
  forall a i, raises w (parse_voc_annotation a i labels ie) = None.

Let parsed : list instance := fst (annotations w ta ti labels ie).
Let seen : gmap string nat := snd (annotations w ta ti labels ie).
Let run := create_training_instances w ta ti va vi labels ie g.

Lemma overlap_full_or_not :
  (size ((list_to_set labels : gset string) ∩ dom seen) <? length labels)%nat = true <->
  ~ NoDup labels \/ exists x, x ∈ labels /\ x ∉ dom seen.
Proof.
  rewrite Nat.ltb_lt. split.
  - intros Hlt.
    destruct (decide (NoDup labels)) as [Hnd|]; [|by left]. right.
    destruct (decide (Forall (fun x => x ∈ dom seen) labels)) as [Hall|Hnot].
    + rewrite Forall_forall in Hall.
      rewrite (overlap_all_present _ _ Hall), (size_list_to_set _ Hnd) in Hlt. lia.
    + apply not_Forall_Exists in Hnot; [|apply _].
      apply Exists_exists in Hnot as (x & Hx & Hout). eauto.
  - intros [Hd|(x & Hin & Hout)].
    + pose proof (size_list_to_set_dup labels Hd).
      pose proof (subseteq_size ((list_to_set labels : gset string) ∩ dom seen)
                    (list_to_set labels) ltac:(set_solver)). lia.
    + by apply (overlap_absent labels _ x).
Qed.

(** X1.  When the annotation parser returns, [create_training_instances]
    returns the three [None] exactly when the configured label list is not
    empty and either repeats a label or holds a label that the training
    annotations do not show. *)
Theorem create_training_instances_aborts_iff :
  result run = inr (None, None, None) <->
  labels <> [] /\ (~ NoDup labels \/ exists x, x ∈ labels /\ x ∉ dom seen).
Proof.
  unfold run. rewrite (create_training_instances_run _ _ _ _ _ _ _ _ parser_returns).
  unfold result. simpl. fold seen. rewrite <- overlap_full_or_not.
  destruct labels as [|x l]; simpl.
  - split; [discriminate|]. by intros [? _].
  - destruct (size _ <? S (length l))%nat; split; try done.
    + intros [_ ?]. done.
Qed.

(** X2.  A non-empty list of distinct labels that are all observed in the
    training annotations comes back unchanged, together with both instance
    lists: with a validation folder the two parsed lists as they are,
    without it two lists that together are a rearrangement of the parsed
    training list. *)
Theorem create_training_instances_keeps_labels :
  labels <> [] -> NoDup labels -> (forall x, x ∈ labels -> x ∈ dom seen) ->
  exists train_ints valid_ints,
    result run = inr (Some train_ints, Some valid_ints, Some labels) /\
    (path_exists w va = true ->
       train_ints = parsed /\ valid_ints = fst (annotations w va vi labels ie)) /\
    (path_exists w va = false -> train_ints ++ valid_ints ≡ₚ parsed).
Proof.
  intros Hne Hnd Hall.
  unfold run. rewrite (create_training_instances_run _ _ _ _ _ _ _ _ parser_returns).
  unfold result. simpl. fold seen parsed.
  rewrite (overlap_all_present _ _ Hall), (size_list_to_set _ Hnd), Nat.ltb_irrefl.
  rewrite andb_false_r.
  destruct labels as [|x l]; [done|]. simpl.
  do 2 eexists. split; [reflexivity|]. split.
  - intros ->. done.
  - intros ->. unfold slice_to, slice_from. rewrite take_drop.
    apply shuffle_Permutation.
Qed.

(** X3.  The three [None] are returned exactly in the runs that print the
    line "Some labels have no annotations! ...", and that line is then the
    last thing [create_training_instances] does. *)
Theorem abort_is_reported :
  (result run = inr (None, None, None) <-> abort_line ∈ trace run) /\
  (result run = inr (None, None, None) -> last (trace run) = Some abort_line).
Proof.
  unfold run. rewrite (create_training_instances_run _ _ _ _ _ _ _ _ parser_returns).
  unfold result, trace, abort_line. simpl.
  destruct (path_exists w va);
    (destruct (0 <? length labels)%nat; [destruct (size _ <? length labels)%nat|]); simpl;
    (split; [split|]); try done; try (intros _; listed); try (intros _; reflexivity); try not_listed.
Qed.

(** X4.  The line "valid_annot_folder not exists. Spliting the trainining
    set." is printed exactly when the validation folder exists, and the
    line "No labels are provided. Train on all seen labels." exactly when
    the configured label list is empty. *)
Theorem folder_message_when_folder_exists :
  (Printed (text "valid_annot_folder not exists. Spliting the trainining set.") ∈ trace run
   <-> path_exists w va = true) /\
  (Printed (text "No labels are provided. Train on all seen labels.") ∈ trace run
   <-> labels = []).
Proof.
  unfold run. rewrite (create_training_instances_run _ _ _ _ _ _ _ _ parser_returns).
  unfold trace. simpl.
  destruct (path_exists w va); destruct labels as [|x l]; simpl;
    try destruct (size _ <? S (length l))%nat; simpl;
    (split; split); try done; try (intros _; listed); try (intros _; reflexivity); try not_listed.
Qed.

(** The two outputs of the split branch, for a list of any length. *)
Lemma split_outputs train_ints valid_ints resolved :
  path_exists w va = false ->
  result run = inr (Some train_ints, Some valid_ints, Some resolved) ->
  let shuffled := fst (NpRandom.shuffle parsed g) in
  let k := slice_bound (length shuffled)
             (PyFloat.int_0_8_times (Z.of_nat (length parsed))) in
  train_ints = take k shuffled /\ valid_ints = drop k shuffled.
Proof.
  intros Hva Hres. unfold run in Hres.
  rewrite (create_training_instances_run _ _ _ _ _ _ _ _ parser_returns) in Hres.
  unfold result in Hres. simpl in Hres. rewrite Hva in Hres.
  destruct ((0 <? length labels)%nat && _); [discriminate|].
  injection Hres as <- <- _. done.
Qed.

(** X7.  In the split branch, for a parsed list of any length, the training
    part followed by the validation part is the shuffled list: no instance
    is lost or repeated, and the two lengths add up to the parsed length. *)
Theorem split_is_a_partition train_ints valid_ints resolved :
  path_exists w va = false ->
  result run = inr (Some train_ints, Some valid_ints, Some resolved) ->
  train_ints ++ valid_ints = fst (NpRandom.shuffle parsed g) /\
  train_ints ++ valid_ints ≡ₚ parsed /\
  (length train_ints + length valid_ints = length parsed)%nat.
Proof.
  intros Hva Hres. destruct (split_outputs _ _ _ Hva Hres) as [-> ->].
  rewrite take_drop. split; [done|]. split; [apply shuffle_Permutation|].
  rewrite <- length_app, take_drop. apply shuffle_length.
Qed.

(** X6.  In the split branch, for a parsed list of [n] instances ([n] below
    2^50): the training part is empty exactly when [n <= 1], the validation
    part is empty exactly when [n = 0], and the validation part has
    [ceil(n/5)] instances. *)
Theorem split_sizes_at_the_edges train_ints valid_ints resolved :
  path_exists w va = false ->
  let n := Z.of_nat (length parsed) in
  n < 2 ^ 50 ->
  result run = inr (Some train_ints, Some valid_ints, Some resolved) ->
  (train_ints = [] <-> n <= 1) /\
  (valid_ints = [] <-> n = 0) /\
  Z.of_nat (length valid_ints) = (n + 4) / 5.
Proof.
  intros Hva n Hn Hres. destruct (split_outputs _ _ _ Hva Hres) as [Htr Hvl].
  rewrite shuffle_length in Htr, Hvl. fold n in Htr, Hvl.
  rewrite int_0_8_times_floor in Htr, Hvl by lia.
  assert (Hb : 0 <= 4 * n / 5 <= n).
  { split; [apply Z.div_pos; lia|]. apply Z.div_le_upper_bound; lia. }
  rewrite slice_bound_inside in Htr, Hvl by (fold n; lia).
  assert (Hlen : Z.of_nat (length (fst (NpRandom.shuffle parsed g))) = n)
    by (rewrite shuffle_length; done).
  assert (Htl : Z.of_nat (length train_ints) = 4 * n / 5)
    by (rewrite Htr, length_take; lia).
  assert (Hvll : Z.of_nat (length valid_ints) = n - 4 * n / 5)
    by (rewrite Hvl, length_drop; lia).
  assert (Hceil : n - 4 * n / 5 = (n + 4) / 5).
  { pose proof (Z.div_mod (4 * n) 5 ltac:(lia)).
    pose proof (Z.mod_pos_bound (4 * n) 5 ltac:(lia)).
    pose proof (Z.div_mod (n + 4) 5 ltac:(lia)).
    pose proof (Z.mod_pos_bound (n + 4) 5 ltac:(lia)). lia. }
  assert (Hfloor : 4 * n / 5 = 0 <-> n <= 1).
  { pose proof (Z.div_mod (4 * n) 5 ltac:(lia)).
    pose proof (Z.mod_pos_bound (4 * n) 5 ltac:(lia)). lia. }
  assert (Hzero : (n + 4) / 5 = 0 <-> n = 0).
  { pose proof (Z.div_mod (n + 4) 5 ltac:(lia)).
    pose proof (Z.mod_pos_bound (n + 4) 5 ltac:(lia)). lia. }
  split; [|split; [|lia]].
  - rewrite <- Hfloor, <- Htl. destruct train_ints; simpl; split; try done; lia.
  - rewrite <- Hzero, <- Hceil, <- Hvll. destruct valid_ints; simpl; split; try done; lia.
Qed.

End DatasetMore.

(** X5.  An exception of the annotation parser ends
    [create_training_instances] with that exception: on the training folder
    right after that call, on the validation folder after the folder message
    and that call; nothing is shuffled and no label line is printed. *)
Theorem parser_failure_propagates w ta ti va vi labels ie g e :
  (raises w (parse_voc_annotation ta ti labels ie) = Some e ->
   create_training_instances w ta ti va vi labels ie g
   = (inl e, g, [Called (parse_voc_annotation ta ti labels ie)])) /\
  (raises w (parse_voc_annotation ta ti labels ie) = None ->
   path_exists w va = true ->
   raises w (parse_voc_annotation va vi labels ie) = Some e ->
   create_training_instances w ta ti va vi labels ie g
   = (inl e, g,
      [Called (parse_voc_annotation ta ti labels ie);
       Printed (text "valid_annot_folder not exists. Spliting the trainining set.");
       Called (parse_voc_annotation va vi labels ie)])).
Proof.
  split.
  - intros Hr. unfold create_training_instances, call_parse_voc_annotation.
    rewrite !run_bind. unfold do_call. by rewrite Hr.
  - intros Hr Hva Hr'. unfold create_training_instances.
    rewrite (run_bind_inr _ _ _ _ _ _ (run_call_parse_voc_annotation _ _ _ _ _ _ Hr)).
    destruct (annotations w ta ti labels ie) as [l d]. simpl. rewrite Hva.
    unfold call_parse_voc_annotation. rewrite !run_bind. unfold do_call, print.
    by rewrite Hr'.
Qed.

(** On the sample data set, the labels dog and bird. *)
Lemma create_training_instances_aborts_iff_witness :
  result (create_training_instances (sample_world ["dog"; "bird"] true false)
            "ann/" "img/" "val_ann/" "val/" ["dog"; "bird"] false sample_rng)
  = inr (None, None, None) <->
  ["dog"; "bird"] <> [] /\
  (~ NoDup ["dog"; "bird"] \/ exists x, x ∈ ["dog"; "bird"] /\ x ∉ dom sample_seen).
Proof.
  apply (create_training_instances_aborts_iff (sample_world ["dog"; "bird"] true false)
           "ann/" "img/" "val_ann/" "val/" ["dog"; "bird"] false sample_rng).
  intros a i. reflexivity.
Defined.

(** On the sample data set, the labels cat and dog, without validation
    folder. *)
Lemma create_training_instances_keeps_labels_witness :
  let w := sample_world ["cat"; "dog"] false false in
  exists train_ints valid_ints,
    result (create_training_instances w "ann/" "img/" "val_ann/" "val/"
              ["cat"; "dog"] false sample_rng)
    = inr (Some train_ints, Some valid_ints, Some ["cat"; "dog"]) /\
    (path_exists w "val_ann/" = true ->
       train_ints = sample_train_ints /\ valid_ints = sample_valid_ints) /\
    (path_exists w "val_ann/" = false -> train_ints ++ valid_ints ≡ₚ sample_train_ints).
Proof.
  intros w.
  apply (create_training_instances_keeps_labels w "ann/" "img/" "val_ann/" "val/"
           ["cat"; "dog"] false sample_rng).
  - intros a i. reflexivity.
  - discriminate.
  - compute_done.
  - intros x Hx. apply elem_of_cons in Hx as [->|Hx]; [compute_done|].
    apply list_elem_of_singleton in Hx as ->. compute_done.
Defined.

(** On the sample data set, the labels dog and bird. *)
Lemma abort_is_reported_witness :
  let run := create_training_instances (sample_world ["dog"; "bird"] true false)
               "ann/" "img/" "val_ann/" "val/" ["dog"; "bird"] false sample_rng in
  (result run = inr (None, None, None) <-> abort_line ∈ trace run) /\
  (result run = inr (None, None, None) -> last (trace run) = Some abort_line).
Proof.
  apply (abort_is_reported (sample_world ["dog"; "bird"] true false)
           "ann/" "img/" "val_ann/" "val/" ["dog"; "bird"] false sample_rng).
  intros a i. reflexivity.
Defined.

(** On the sample data set, without configured labels and without
    validation folder. *)
Lemma folder_message_when_folder_exists_witness :
  let w := sample_world [] false false in
  let run := create_training_instances w "ann/" "img/" "val_ann/" "val/" [] false sample_rng in
  (Printed (text "valid_annot_folder not exists. Spliting the trainining set.") ∈ trace run
   <-> path_exists w "val_ann/" = true) /\
  (Printed (text "No labels are provided. Train on all seen labels.") ∈ trace run
   <-> ([] : list string) = []).
Proof.
  apply (folder_message_when_folder_exists (sample_world [] false false)
           "ann/" "img/" "val_ann/" "val/" [] false sample_rng).
  intros a i. reflexivity.
Defined.

(** On the sample data set, with a training folder, then a validation
    folder, that the annotation parser cannot read. *)
Lemma parser_failure_propagates_witness :
  create_training_instances (sample_world_unreadable "ann/" true)
    "ann/" "img/" "val_ann/" "val/" [] false sample_rng
  = (inl (Exception "cannot read the annotation folder"), sample_rng,
     [Called (parse_voc_annotation "ann/" "img/" [] false)]) /\
  create_training_instances (sample_world_unreadable "val_ann/" true)
    "ann/" "img/" "val_ann/" "val/" [] false sample_rng
  = (inl (Exception "cannot read the annotation folder"), sample_rng,
     [Called (parse_voc_annotation "ann/" "img/" [] false);
      Printed (text "valid_annot_folder not exists. Spliting the trainining set.");
      Called (parse_voc_annotation "val_ann/" "val/" [] false)]).
Proof.
  split.
  - apply (proj1 (parser_failure_propagates (sample_world_unreadable "ann/" true)
                    "ann/" "img/" "val_ann/" "val/" [] false sample_rng
                    (Exception "cannot read the annotation folder"))).
    reflexivity.
  - apply (proj2 (parser_failure_propagates (sample_world_unreadable "val_ann/" true)
                    "ann/" "img/" "val_ann/" "val/" [] false sample_rng
                    (Exception "cannot read the annotation folder"))); reflexivity.
Defined.

(** On the sample data set: five images, one of them for validation. *)
Lemma split_sizes_at_the_edges_witness :
  let shuffled := fst (NpRandom.shuffle sample_train_ints sample_rng) in
  (take 4 shuffled = [] <-> 5 <= 1) /\
  (drop 4 shuffled = [] <-> 5 = 0) /\
  Z.of_nat (length (drop 4 shuffled)) = (5 + 4) / 5.
Proof.
  intros shuffled.
  apply (split_sizes_at_the_edges (sample_world [] false false)
           "ann/" "img/" "val_ann/" "val/" [] false sample_rng
           ltac:(intros a i; reflexivity) (take 4 shuffled) (drop 4 shuffled) ["cat"; "dog"]).
  - reflexivity.
  - vm_compute. reflexivity.
  - vm_compute. reflexivity.
Defined.

(** On the sample data set. *)
Lemma split_is_a_partition_witness :
  let shuffled := fst (NpRandom.shuffle sample_train_ints sample_rng) in
  take 4 shuffled ++ drop 4 shuffled = shuffled /\
  take 4 shuffled ++ drop 4 shuffled ≡ₚ sample_train_ints /\
  (length (take 4 shuffled) + length (drop 4 shuffled) = length sample_train_ints)%nat.
Proof.
  intros shuffled.
  apply (split_is_a_partition (sample_world [] false false)
           "ann/" "img/" "val_ann/" "val/" [] false sample_rng
           ltac:(intros a i; reflexivity) (take 4 shuffled) (drop 4 shuffled) ["cat"; "dog"]).
  - reflexivity.
  - vm_compute. reflexivity.
Defined.

(** ** Exceptions are not caught *)

Section Uncaught.
Variable w : World.















End Uncaught.


(** ** More on [_main_] *)

Section AllEvents.
Variable w : World.
Variable P : event -> Prop.

Lemma all_events_ret {A : Type} (a : A) : all_events P (mret a).
Proof. intros g. constructor. Qed.

Lemma all_events_raise {A : Type} (e : exn) : all_events P (@raise A e).
Proof. intros g. constructor. Qed.

Lemma all_events_print l : P (Printed l) -> all_events P (print l).
Proof. intros H g. by repeat constructor. Qed.

Lemma all_events_do_call c : P (Called c) -> all_events P (do_call w c).
Proof. intros H g. by repeat constructor. Qed.

Lemma all_events_bind {A B : Type} (m : M A) (f : A -> M B) :
  all_events P m -> (forall a, all_events P (f a)) -> all_events P (m ≫= f).
Proof.
  intros Hm Hf g. specialize (Hm g). rewrite run_bind.
  destruct (m g) as [[[e|a] g1] t1]; [exact Hm|].
  specialize (Hf a g1). destruct (f a g1) as [[r g2] t2]. by apply Forall_app.
Qed.

Lemma all_events_bind_val {A B : Type} (m : M A) (f : A -> M B) :
  all_events P m ->
  (forall a g g1 t1, m g = (inr a, g1, t1) -> all_events P (f a)) ->
  all_events P (m ≫= f).
Proof.
  intros Hm Hf g. specialize (Hm g). rewrite run_bind.
  destruct (m g) as [[[e|a] g1] t1] eqn:Hrun; [exact Hm|].
  specialize (Hf a g g1 t1 Hrun g1). destruct (f a g1) as [[r g2] t2]. by apply Forall_app.
Qed.

Lemma all_events_then_ret {A B C : Type} (m : M A) (b : B) (f : B -> M C) :
  all_events P m -> all_events P (f b) -> all_events P ((m ≫= fun _ => mret b) ≫= f).
Proof.
  intros Hm Hf g. specialize (Hm g). rewrite !run_bind.
  destruct (m g) as [[[e|a] g1] t1]; [exact Hm|]. simpl.
  specialize (Hf g1). destruct (f b g1) as [[r g2] t2].
  rewrite app_nil_r. by apply Forall_app.
Qed.

Lemma all_events_for_each {A : Type} (l : list A) (body : A -> M unit) :
  (forall x, all_events P (body x)) -> all_events P (for_each l body).
Proof.
  intros Hb. induction l as [|x l IH]; simpl.
  - apply all_events_ret.
  - apply all_events_bind; [apply Hb|]. intros _. exact IH.
Qed.

Lemma all_events_len {A : Type} (x : option (list A)) : all_events P (len x).
Proof. destruct x; [apply all_events_ret|apply all_events_raise]. Qed.

Lemma all_events_getitem {A : Type} (x : option (list A)) i : all_events P (getitem x i).
Proof.
  destruct x as [l|]; simpl; [|apply all_events_raise].
  destruct (l !! i); [apply all_events_ret|apply all_events_raise].
Qed.

Lemma all_events_truediv x n : all_events P (truediv x n).
Proof. unfold truediv. destruct (n =? 0); [apply all_events_raise|apply all_events_ret]. Qed.

Lemma all_events_dataset ta ti va vi labels ie :
  (forall ev, dataset_event ev -> P ev) ->
  all_events P (create_training_instances w ta ti va vi labels ie).
Proof.
  intros H g. eapply Forall_impl; [apply create_training_instances_events|exact H].
Qed.

End AllEvents.

(** Decompose a computation of [_main_] into its steps; what remains is the
    property of each printed line and of each call. *)
Ltac all_events_step :=
  first
    [ apply all_events_ret
    | apply all_events_raise
    | apply all_events_len
    | apply all_events_getitem
    | apply all_events_truediv
    | apply all_events_print
    | apply all_events_do_call
    | apply all_events_for_each; intros ?
    | apply all_events_bind; [|intros ?]
    | match goal with
      | |- all_events _ (if ?b then _ else _) => destruct b eqn:?
      end ].

(** X12.  In every run of [_main_], in every world: the file opened is the
    one named on the command line; the checkpoint callback of every
    [fit_generator] call, every weight file loaded into the inference model
    and every file saved are at the configured saved-weights path; the
    training model loads that path when it exists and [backend.h5]
    otherwise; only the inference model is saved or evaluated. *)
Theorem main_keeps_to_configured_files w args g :
  Forall (keeps_to_configured_files w args) (trace (_main_ w args g)).
Proof.
  revert g. change (all_events (keeps_to_configured_files w args) (_main_ w args)).
  unfold _main_, load_config.
  destruct (args !! "conf") as [[path|]|] eqn:Hconf;
    [|intros g; constructor..].
  assert (saved_path w args
          = Some (Config.saved_weights_name (Config.train (config_at w path)))) as Hp
    by (unfold saved_path; by rewrite Hconf).
  apply all_events_then_ret; [by apply all_events_do_call|].
  set (config := config_at w path) in *. cbv zeta.
  apply all_events_bind.
  { apply all_events_dataset. by intros [[]|[]]. }
  intros [[train_ints valid_ints] labels].
  repeat all_events_step; simpl; try done; eauto.
  - exists (Config.saved_weights_name (Config.train config)).
    split; [done|]. by match goal with H : path_exists _ _ = _ |- _ => rewrite H end.
  - exists (Config.saved_weights_name (Config.train config)).
    split; [done|]. by match goal with H : path_exists _ _ = _ |- _ => rewrite H end.
Qed.

(** The label list that [create_training_instances] returns, when it
    returns one, in every world. *)
Lemma create_training_instances_labels w ta ti va vi labels ie g train_ints valid_ints ls :
  result (create_training_instances w ta ti va vi labels ie g)
  = inr (train_ints, valid_ints, Some ls) ->
  ls = match labels with
       | [] => sorted (elements (dom (snd (annotations w ta ti labels ie))))
       | _ :: _ => labels
       end.
Proof.
  unfold create_training_instances, call_parse_voc_annotation, shuffle_in_place.
  rewrite !run_bind. unfold do_call, print, result. simpl.
  destruct (raises w (parse_voc_annotation ta ti labels ie)); simpl; [done|].
  destruct (annotations w ta ti labels ie) as [l seen]. simpl.
  destruct (path_exists w va).
  - rewrite !run_bind. simpl.
    destruct (raises w (parse_voc_annotation va vi labels ie)); simpl; [done|].
    destruct (annotations w va vi labels ie) as [l' seen']. simpl.
    destruct labels as [|x labels]; simpl; [congruence|].
    destruct (size _ <? _)%nat; simpl; congruence.
  - rewrite !run_bind. simpl. destruct (NpRandom.shuffle l g) as [l' g']. simpl.
    destruct labels as [|x labels]; simpl; [congruence|].
    destruct (size _ <? _)%nat; simpl; congruence.
Qed.

Lemma length_sorted_keys (d : gmap string nat) : length (sorted (elements (dom d))) = size (dom d).
Proof. by rewrite sorted_Permutation. Qed.

Section MainMore.

Variables (w : World) (args : Argparse.Namespace) (path : string) (g : NpRandom.rng).

Hypothesis conf_given : args !! "conf" = Some (Argparse.Str path).
Hypothesis config_opens : raises w (open_config path) = None.

Let config : Config.t := config_at w path.
Let labels : list string := Config.labels (Config.model config).
Let seen : gmap string nat :=
  snd (annotations w (Config.train_annot_folder (Config.train config))
         (Config.train_image_folder (Config.train config)) labels
         (Config.include_empty (Config.train config))).

Let dataset :=
  create_training_instances w
    (Config.train_annot_folder (Config.train config))
    (Config.train_image_folder (Config.train config))
    (Config.valid_annot_folder (Config.valid config))
    (Config.valid_image_folder (Config.valid config))
    (Config.labels (Config.model config))
    (Config.include_empty (Config.train config)) g.


(** X10.  Every call of the model factory in a run of [_main_] passes as
    [nb_class] the number of distinct labels seen in the training
    annotations when no label is configured, and the number of configured
    labels otherwise; and the factory is called when the dataset
    preparation returns a label list and both generators are constructed. *)
Theorem nb_class_of_main :
  let run := _main_ w args g in
  let n := match labels with [] => size (dom seen) | _ :: _ => length labels end in
  Forall (nb_class_is n) (trace run) /\
  ((forall gen, raises w (BatchGenerator_init gen) = None) ->
   forall train_ints valid_ints ls,
     result dataset = inr (train_ints, valid_ints, Some ls) ->
     exists a, Called (create_yolov3_model a) ∈ trace run /\ Yolo.nb_class a = Z.of_nat n).
Proof.
  intros run n. split.
  - unfold run. generalize g.
    change (all_events (nb_class_is n) (_main_ w args)).
    unfold _main_. rewrite conf_given. unfold load_config.
    apply all_events_then_ret; [by apply all_events_do_call|].
    fold config. cbv zeta.
    apply all_events_bind_val.
    { apply all_events_dataset. by intros [[]|[]]. }
    intros [[train_ints valid_ints] ls] g0 g1 t1 Hrun.
    apply (f_equal result) in Hrun. unfold result at 2 in Hrun. simpl in Hrun.
    do 2 (apply all_events_bind; [by apply all_events_do_call|intros _]).
    destruct ls as [ls|]; [|intros g'; constructor].
    apply create_training_instances_labels in Hrun.
    assert (length ls = n) as Hn.
    { subst ls. unfold n. fold labels. destruct labels; [apply length_sorted_keys|done]. }
    apply all_events_bind_val; [apply all_events_ret|].
    intros a g2 g3 t3 Ha. injection Ha as <- _ _.
    repeat all_events_step; simpl; try done. by rewrite Hn.
  - intros Hgen train_ints valid_ints ls Hcti.
    pose proof (create_training_instances_labels _ _ _ _ _ _ _ _ _ _ _ Hcti) as Hls.
    eexists. split.
    + unfold run, _main_. rewrite conf_given.
      eapply elem_of_trace_bind_r; [apply (run_load_config _ _ _ config_opens)|].
      eapply elem_of_trace_bind_r.
      { rewrite (run_as_triple (create_training_instances _ _ _ _ _ _ _ _)).
        fold config dataset. rewrite Hcti. reflexivity. }
      cbv beta iota zeta.
      eapply elem_of_trace_bind_r; [apply run_do_call, Hgen|].
      eapply elem_of_trace_bind_r; [apply run_do_call, Hgen|].
      eapply elem_of_trace_bind_r; [reflexivity|].
      apply elem_of_trace_bind_l. unfold do_call, trace. simpl.
      by apply list_elem_of_singleton.
    + simpl. f_equal. subst ls. unfold n. fold config labels.
      destruct labels; [apply length_sorted_keys|done].
Qed.

(** X11.  In a run of [_main_] in which no collaborator raises and the
    dataset preparation succeeds, the calls happen in this order: the two
    generators, the model factory, the weights of the training model (the
    saved weights, announced by a line, when they exist, else
    [backend.h5]), [compile], [fit_generator] on the two generators with the
    callbacks of the saved-weights path, the reload of the inference model
    from that path, its save to that path, the evaluation on the validation
    generator; after it only lines are printed. *)
Theorem main_pipeline train_ints valid_ints ls :
  (forall c, raises w c = None) ->
  result dataset = inr (Some train_ints, Some valid_ints, Some ls) ->
  let train_generator := train_generator config (Some train_ints) (Some ls) in
  let valid_generator := valid_generator config (Some valid_ints) (Some ls) in
  let saved_weights_name := Config.saved_weights_name (Config.train config) in
  exists a optimizer f report,
    trace (_main_ w args g) =
      Called (open_config path) :: trace dataset
      ++ [Called (BatchGenerator_init train_generator);
          Called (BatchGenerator_init valid_generator);
          Called (create_yolov3_model a)]
      ++ (if path_exists w saved_weights_name
          then [Printed (text "Loading pretrained weights.");
                Called (load_weights train_model saved_weights_name)]
          else [Called (load_weights train_model "backend.h5")])
      ++ [Called (compile optimizer);
          Called (fit_generator f);
          Called (load_weights infer_model saved_weights_name);
          Called (save infer_model saved_weights_name);
          Called (evaluate infer_model valid_generator)]
      ++ report /\
    Fit.generator f = train_generator /\
    Fit.validation_data f = valid_generator /\
    Fit.callbacks f = create_callbacks saved_weights_name /\
    Forall (fun ev => exists label_or_mAP, ev = Printed label_or_mAP) report.
Proof.
  intros Hr Hcti tg vg name.
  unfold _main_. rewrite conf_given.
  rewrite (run_bind_inr _ _ _ _ _ _ (run_load_config _ _ _ config_opens)).
  fold config dataset.
  destruct dataset as [[r g1] t1] eqn:Hrun.
  unfold result in Hcti. simpl in Hcti. subst r.
  rewrite (run_bind_inr _ _ _ _ _ _ Hrun). cbv beta iota zeta.
  do 2 run_next_call Hr.
  rewrite (run_bind_inr (len (Some ls)) _ _ _ _ _ eq_refl).
  run_next_call Hr.
  fold tg vg name.
  assert ((if path_exists w name
           then print (text "Loading pretrained weights.");;
                do_call w (load_weights train_model name)
           else do_call w (load_weights train_model "backend.h5")) g1
          = (inr tt, g1,
             if path_exists w name
             then [Printed (text "Loading pretrained weights.");
                   Called (load_weights train_model name)]
             else [Called (load_weights train_model "backend.h5")])) as Hload.
  { destruct (path_exists w name).
    - by rewrite (run_bind_inr (print _) _ _ _ _ _ eq_refl), (run_do_call _ _ _ (Hr _)).
    - apply run_do_call, Hr. }
  rewrite (run_bind_inr _ _ _ _ _ _ Hload).
  do 5 run_next_call Hr.
  match goal with
  | |- context [(for_each ?aps ?body ≫= ?k) g1] =>
      assert (all_events (fun ev => exists l, ev = Printed l) (for_each aps body ≫= k))
        as Hreport by (repeat all_events_step; eauto);
      specialize (Hreport g1);
      destruct ((for_each aps body ≫= k) g1) as [[r g2] t2]
  end.
  unfold trace in *. simpl in *.
  do 4 eexists. split; [|split; [|split; [|split; [|exact Hreport]]]]; reflexivity.
Qed.

(** The loop of the report stops at the first label index that is not an
    index of the label list, after the lines of the entries before it. *)
Lemma run_label_lines_out_of_range (ls : list string) (pre post : list (nat * Q)) i ap g0 :
  (forall item, item ∈ pre -> (fst item < length ls)%nat) ->
  (length ls <= i)%nat ->
  for_each (pre ++ (i, ap) :: post) (fun item =>
    label ← getitem (Some ls) (fst item);
    print (label_score label (snd item))) g0
  = (inl IndexError, g0,
     (fun item => Printed (label_score (default EmptyString (ls !! fst item)) (snd item)))
       <$> pre).
Proof.
  intros Hin Hout. induction pre as [|[j aq] pre IH].
  - cbn [app for_each]. rewrite !run_bind. unfold getitem. cbn [fst].
    by rewrite (lookup_ge_None_2 ls i Hout).
  - destruct (lookup_lt_is_Some_2 ls j) as [s Hs].
    { apply (Hin (j, aq)). set_solver. }
    assert ((getitem (Some ls) j ≫= fun label => print (label_score label aq)) g0
            = (inr tt, g0, [Printed (label_score s aq)])) as Hline.
    { rewrite run_bind. unfold getitem. by rewrite Hs. }
    cbn [app for_each]. rewrite (run_bind_inr _ _ _ _ _ _ Hline).
    rewrite IH by (intros item Hitem; apply Hin; set_solver).
    cbn [fmap list_fmap fst snd]. by rewrite Hs.
Qed.

(** X13.  When the evaluation returns an average precision under a label
    index that is not an index of the label list, the run of [_main_] ends
    with [IndexError], and what follows the evaluation call in its trace is
    exactly the score lines of the entries before that index: the mAP is not
    reached. *)
Theorem main_label_index_out_of_range train_ints valid_ints ls pre i ap post :
  (forall c, raises w c = None) ->
  result dataset = inr (Some train_ints, Some valid_ints, Some ls) ->
  let valid_generator := valid_generator config (Some valid_ints) (Some ls) in
  average_precisions_of w infer_model valid_generator = pre ++ (i, ap) :: post ->
  (forall item, item ∈ pre -> (fst item < length ls)%nat) ->
  (length ls <= i)%nat ->
  let run := _main_ w args g in
  result run = inl IndexError /\
  exists t,
    trace run =
      t ++ Called (evaluate infer_model valid_generator)
        :: ((fun item => Printed (label_score (default EmptyString (ls !! fst item)) (snd item)))
              <$> pre).
Proof.
  intros Hr Hcti vg Haps Hin Hout run.
  unfold run, _main_. rewrite conf_given.
  rewrite (run_bind_inr _ _ _ _ _ _ (run_load_config _ _ _ config_opens)).
  fold config dataset.
  destruct dataset as [[r g1] t1] eqn:Hrun.
  unfold result in Hcti. simpl in Hcti. subst r.
  rewrite (run_bind_inr _ _ _ _ _ _ Hrun). cbv beta iota zeta.
  do 2 run_next_call Hr.
  rewrite (run_bind_inr (len (Some ls)) _ _ _ _ _ eq_refl).
  run_next_call Hr.
  assert (exists t,
    (if path_exists w (Config.saved_weights_name (Config.train config))
     then print (text "Loading pretrained weights.");;
          do_call w (load_weights train_model (Config.saved_weights_name (Config.train config)))
     else do_call w (load_weights train_model "backend.h5")) g1 = (inr tt, g1, t))
    as (t & Hload).
  { destruct (path_exists w _).
    - eexists.
      by rewrite (run_bind_inr (print _) _ _ _ _ _ eq_refl), (run_do_call _ _ _ (Hr _)).
    - eexists. apply run_do_call, Hr. }
  rewrite (run_bind_inr _ _ _ _ _ _ Hload).
  do 5 run_next_call Hr.
  fold vg. rewrite Haps.
  rewrite run_bind, (run_label_lines_out_of_range _ _ _ _ _ _ Hin Hout).
  unfold result, trace. simpl. split; [done|].
  match goal with
  | |- exists t0, ?h :: t1 ++ ?a :: ?b :: ?c :: t ++ ?d :: ?e :: ?f :: ?s :: _ = _ =>
      exists (h :: t1 ++ a :: b :: c :: t ++ [d; e; f; s])
  end.
  simpl. f_equal. rewrite <- app_assoc. f_equal. simpl. do 3 f_equal.
  by rewrite <- app_assoc.
Qed.

End MainMore.


(** On the sample run without configured labels: two labels are seen. *)
Lemma nb_class_of_main_witness :
  let run := _main_ (sample_world [] false false) sample_args sample_rng in
  Forall (nb_class_is 2) (trace run) /\
  exists a, Called (create_yolov3_model a) ∈ trace run /\ Yolo.nb_class a = 2.
Proof.
  intros run.
  destruct (nb_class_of_main (sample_world [] false false) sample_args "config.json"
              sample_rng eq_refl eq_refl) as [Hall Hcalled].
  split; [exact Hall|].
  apply (Hcalled (fun gen => eq_refl)
           (Some (take 4 (fst (NpRandom.shuffle sample_train_ints sample_rng))))
           (Some (drop 4 (fst (NpRandom.shuffle sample_train_ints sample_rng))))
           ["cat"; "dog"]).
  vm_compute. reflexivity.
Defined.

(** On the sample run without saved weights. *)
Lemma main_pipeline_witness :
  let w := sample_world [] false false in
  let shuffled := fst (NpRandom.shuffle sample_train_ints sample_rng) in
  let train_generator :=
    train_generator (sample_config []) (Some (take 4 shuffled)) (Some ["cat"; "dog"]) in
  let valid_generator :=
    valid_generator (sample_config []) (Some (drop 4 shuffled)) (Some ["cat"; "dog"]) in
  exists a optimizer f report,
    trace (_main_ w sample_args sample_rng) =
      Called (open_config "config.json")
      :: trace (create_training_instances w "ann/" "img/" "val_ann/" "val/" [] false sample_rng)
      ++ [Called (BatchGenerator_init train_generator);
          Called (BatchGenerator_init valid_generator);
          Called (create_yolov3_model a)]
      ++ [Called (load_weights train_model "backend.h5")]
      ++ [Called (compile optimizer);
          Called (fit_generator f);
          Called (load_weights infer_model "weights.h5");
          Called (save infer_model "weights.h5");
          Called (evaluate infer_model valid_generator)]
      ++ report /\
    Fit.generator f = train_generator /\
    Fit.validation_data f = valid_generator /\
    Fit.callbacks f = create_callbacks "weights.h5" /\
    Forall (fun ev => exists label_or_mAP, ev = Printed label_or_mAP) report.
Proof.
  intros w shuffled tg vg.
  apply (main_pipeline w sample_args "config.json" sample_rng eq_refl eq_refl
           (take 4 shuffled) (drop 4 shuffled) ["cat"; "dog"]).
  - intros c. reflexivity.
  - vm_compute. reflexivity.
Defined.

(** On the sample run whose evaluation returns the label indices 0 and 2,
    for the two labels cat and dog. *)
Lemma main_label_index_out_of_range_witness :
  let shuffled := fst (NpRandom.shuffle sample_train_ints sample_rng) in
  let valid_generator :=
    valid_generator (sample_config []) (Some (drop 4 shuffled)) (Some ["cat"; "dog"]) in
  let run := _main_ sample_world_stray_index sample_args sample_rng in
  result run = inl IndexError /\
  exists t,
    trace run =
      t ++ [Called (evaluate infer_model valid_generator);
            Printed (label_score "cat" (1 # 2))].
Proof.
  intros shuffled vg run.
  apply (main_label_index_out_of_range sample_world_stray_index sample_args "config.json"
           sample_rng eq_refl eq_refl
           (take 4 shuffled) (drop 4 shuffled) ["cat"; "dog"]
           [(0%nat, (1 # 2)%Q)] 2%nat (3 # 4)%Q []).
  - intros c. reflexivity.
  - vm_compute. reflexivity.
  - reflexivity.
  - intros item Hitem. apply list_elem_of_singleton in Hitem as ->. simpl. lia.
  - simpl. lia.
Defined.

(** The mAP line closes the run. *)

Lemma completes_with_mAP_bind {A : Type} (m : M A) (f : A -> M unit) :
  all_events (fun ev => ~ prints_mAP ev) m ->
  (forall a g, completes_with_mAP (f a g)) ->
  forall g, completes_with_mAP ((m ≫= f) g).
Proof.
  intros Hm Hf g. specialize (Hm g). rewrite run_bind.
  destruct (m g) as [[[e|a] g1] t1]; [exact Hm|].
  specialize (Hf a g1). destruct (f a g1) as [[[e|[]] g2] t2];
    unfold completes_with_mAP, result, trace in *; simpl in *.
  - by apply Forall_app.
  - destruct Hf as [mAP Hlast]. exists mAP. rewrite last_app. by rewrite Hlast.
Qed.

Lemma completes_with_mAP_raise (e : exn) g : completes_with_mAP (raise e g).
Proof. constructor. Qed.

Lemma main_completes_with_mAP w args g : completes_with_mAP (_main_ w args g).
Proof.
  revert g. unfold _main_.
  apply completes_with_mAP_bind.
  { unfold load_config. destruct (args !! "conf") as [[path|]|];
      repeat all_events_step; by intros []. }
  intros config. cbv zeta.
  apply completes_with_mAP_bind.
  { apply all_events_dataset. intros [[]|[]]; try done; by intros _ []. }
  intros [[train_ints valid_ints] labels].
  repeat (apply completes_with_mAP_bind;
          [repeat all_events_step; by intros []|intros ?]).
  intros g. unfold completes_with_mAP. simpl. by eexists.
Qed.

(** X17.  In every world, a run of [_main_] ends normally exactly when it
    has printed the mAP; and when the mAP has been printed, the last event
    of the run is an mAP line. *)
Theorem main_completes_iff_mAP_printed w args g :
  let run := _main_ w args g in
  (result run = inr tt <-> exists mAP, Printed (mAP_score mAP) ∈ trace run) /\
  (forall mAP, Printed (mAP_score mAP) ∈ trace run ->
     exists mAP', last (trace run) = Some (Printed (mAP_score mAP'))).
Proof.
  intros run. pose proof (main_completes_with_mAP w args g) as H.
  fold run in H. unfold completes_with_mAP in H.
  assert (forall mAP, Printed (mAP_score mAP) ∈ trace run -> result run = inr tt) as Hok.
  { intros mAP Hin. destruct (result run) as [e|[]]; [|done].
    rewrite Forall_forall in H. by destruct (H _ Hin). }
  split; [split|].
  - intros Hr. rewrite Hr in H. destruct H as [mAP Hlast]. exists mAP.
    apply last_Some in Hlast as [t ->]. set_solver.
  - intros [mAP Hin]. by eapply Hok.
  - intros mAP Hin. rewrite (Hok _ Hin) in H. exact H.
Qed.

(** ** More on the command line *)

Lemma assoc_elem_of {V : Type} k (l : list (string * V)) v :
  Argparse.assoc k l = Some v -> exists k', (k', v) ∈ l.
Proof.
  induction l as [|[k' v'] l IH]; simpl; [done|].
  destruct (String.eqb k k').
  - intros [= ->]. exists k'. set_solver.
  - intros H. destruct (IH H) as [k'' Hk]. exists k''. set_solver.
Qed.

Lemma option_table_known k a : (k, a) ∈ Argparse.option_table argparser -> known_action a.
Proof.
  intros H. vm_compute in H.
  repeat (apply elem_of_cons in H as [H|H]; [injection H as -> ->; vm_compute; auto|]).
  by apply elem_of_nil in H.
Qed.

Lemma assoc_known k a :
  Argparse.assoc k (Argparse.option_table argparser) = Some a -> known_action a.
Proof. intros H. apply assoc_elem_of in H as [k' H]. by eapply option_table_known. Qed.

Lemma get_option_tuples_known s a o e :
  (a, o, e) ∈ Argparse.get_option_tuples argparser s -> known_action a.
Proof.
  unfold Argparse.get_option_tuples.
  destruct (Argparse.is_long s).
  - destruct (match Argparse.split_eq s with Some (l, r) => (l, Some r) | None => (s, None) end)
      as [prefix explicit].
    intros H. apply list_elem_of_omap in H as ([k a'] & Hin & Hsome).
    simpl in Hsome. destruct (String.prefix prefix k); [|done].
    injection Hsome as <- _ _. by eapply option_table_known.
  - intros H. apply list_elem_of_omap in H as ([k a'] & Hin & Hsome).
    simpl in Hsome.
    destruct (String.eqb k (Argparse.take2 s)); [|destruct (String.prefix s k); [|done]];
      injection Hsome as <- _ _; by eapply option_table_known.
Qed.

Lemma parse_optional_known s a o e :
  Argparse.parse_optional argparser s = Argparse.optional (Some a) o e -> known_action a.
Proof.
  unfold Argparse.parse_optional.
  destruct s as [|c s']; [done|].
  destruct (negb (Argparse.is_dash c)); [done|].
  destruct (Argparse.assoc _ _) as [a0|] eqn:Ha0.
  { intros [= <- _ _]. by eapply assoc_known. }
  destruct (_ =? 1)%nat; [done|].
  destruct (Argparse.split_eq _) as [[o' e']|].
  - destruct (Argparse.assoc o' _) as [a1|] eqn:Ha1.
    { intros [= <- _ _]. by eapply assoc_known. }
    destruct (Argparse.get_option_tuples _ _) as [|[[a2 o2] e2] [|? ?]] eqn:Ht; [|..|done].
    + destruct (_ && _); [done|]. by destruct (Argparse.contains_space _).
    + intros [= <- _ _]. eapply (get_option_tuples_known _ _ o2 e2). rewrite Ht. set_solver.
  - destruct (Argparse.get_option_tuples _ _) as [|[[a2 o2] e2] [|? ?]] eqn:Ht; [|..|done].
    + destruct (_ && _); [done|]. by destruct (Argparse.contains_space _).
    + intros [= <- _ _]. eapply (get_option_tuples_known _ _ o2 e2). rewrite Ht. set_solver.
Qed.

Lemma read_all_known argv args :
  Argparse.read_all argparser argv = Some args ->
  Forall known_pattern args /\ length args = length argv.
Proof.
  revert args. induction argv as [|s rest IH]; intros args; simpl.
  { intros [= <-]. by split. }
  destruct (String.eqb s "--").
  { intros [= <-]. split.
    - constructor; [done|]. apply Forall_fmap. by apply Forall_true.
    - simpl. by rewrite length_fmap. }
  destruct (Argparse.parse_optional argparser s) as [|[a|] o e|] eqn:Hs; [| | |done];
    destruct (Argparse.read_all argparser rest) as [args'|]; simpl; [|done| |done| |done];
    intros [= <-]; destruct (IH _ eq_refl) as [Hk Hl]; (split; [|simpl; by rewrite Hl]);
    constructor; try done.
  simpl. unfold known_pattern. simpl. by eapply parse_optional_known.
Qed.

Lemma consume_explicit_known h a o e :
  known_action a ->
  match Argparse.consume_explicit argparser h a o e with
  | inl err => err = SystemExit 2
  | inr (_, a', _, _) => known_action a'
  end.
Proof.
  revert h a o. induction e as [|c e' IH]; intros h a o Ha; cbn [Argparse.consume_explicit].
  - destruct (Argparse.kind a); [|done]. by destruct (Argparse.is_long o).
  - destruct (Argparse.kind a); [|done]. destruct (Argparse.is_long o); [done|].
    destruct (Argparse.assoc _ _) as [a'|] eqn:Ha'; [|done].
    apply assoc_known in Ha'. destruct e'; [done|]. by apply IH.
Qed.

Lemma consume_outcomes fuel args ns seen extras :
  Forall known_pattern args -> (length args <= fuel)%nat ->
  match Argparse.consume argparser fuel args ns seen extras with
  | inl err => err = SystemExit 0 \/ err = SystemExit 2
  | inr (ns', _, extras') =>
      extras' = [] ->
      extras = [] /\
      ((args = [] /\ ns' = ns) \/ (args <> [] /\ exists v, ns' = <["conf" := v]> ns))
  end.
Proof.
  revert args ns seen extras. induction fuel as [|fuel IH]; intros args ns seen extras Hk Hl.
  { destruct args; simpl in *; [auto|lia]. }
  destruct args as [|[s pt] rest]; [simpl; auto|].
  apply Forall_cons in Hk as [Hs Hk]. simpl in Hl.
  assert (forall ns0 seen0,
    match Argparse.consume argparser fuel rest ns0 seen0 (extras ++ [s]) with
    | inl err => err = SystemExit 0 \/ err = SystemExit 2
    | inr (ns', _, extras') =>
        extras' = [] ->
        extras = [] /\
        (((s, pt) :: rest = [] /\ ns' = ns) \/
         ((s, pt) :: rest <> [] /\ exists v, ns' = <["conf" := v]> ns))
    end) as Hleft.
  { intros ns0 seen0. specialize (IH rest ns0 seen0 (extras ++ [s]) Hk ltac:(lia)).
    destruct (Argparse.consume _ _ _ _ _ _) as [err|[[ns' seen'] extras']]; [done|].
    intros Hnil. destruct (IH Hnil) as [Habs _]. by destruct extras. }
  assert (forall x rest',
    Forall known_pattern rest' -> (length rest' <= fuel)%nat -> forall a',
    Argparse.dest a' = "conf" ->
    match Argparse.consume argparser fuel rest' (<[Argparse.dest a' := Argparse.get_values x]> ns)
            (Argparse.dest a' :: seen) extras with
    | inl err => err = SystemExit 0 \/ err = SystemExit 2
    | inr (ns', _, extras') =>
        extras' = [] ->
        extras = [] /\
        (((s, pt) :: rest = [] /\ ns' = ns) \/
         ((s, pt) :: rest <> [] /\ exists v, ns' = <["conf" := v]> ns))
    end) as Hstore.
  { intros x rest' Hk' Hl' a' Hdest. rewrite Hdest.
    specialize (IH rest' (<["conf" := Argparse.get_values x]> ns) ("conf" :: seen) extras Hk' Hl').
    destruct (Argparse.consume _ _ _ _ _ _) as [err|[[ns' seen'] extras']]; [done|].
    intros Hnil. destruct (IH Hnil) as [-> [[_ ->]|[_ [v ->]]]]; (split; [done|]); right;
      (split; [done|]); eauto.
    exists v. by rewrite insert_insert_eq. }
  destruct pt as [| |[a|] o e]; cbn [Argparse.consume]; [apply Hleft..| |apply Hleft].
  unfold known_pattern in Hs. simpl in Hs.
  assert (match (match e with
                 | Some e' => Argparse.consume_explicit argparser false a o e'
                 | None => inr (false, a, o, None)
                 end) with
          | inl err => err = SystemExit 2
          | inr (_, a', _, _) => known_action a'
          end) as Hlast.
  { destruct e; [by apply consume_explicit_known|done]. }
  destruct (match e with Some _ => _ | None => _ end) as [err|[[[h a'] o'] v]]; [auto|].
  destruct Hlast as [Hhelp|[Hst Hdest]].
  { rewrite Hhelp. auto. }
  rewrite Hst. destruct v as [x|].
  - destruct h; [auto|]. apply Hstore; [done|lia|done].
  - destruct rest as [|[x [| |]] rest']; simpl; auto.
    destruct h; [auto|]. apply Forall_cons in Hk as [_ Hk]. simpl in Hl.
    apply Hstore; [done|lia|done].
Qed.

(** What parsing a command line can give: a usage error or the help exit;
    for the empty command line the empty namespace; otherwise a namespace
    that binds [conf] and nothing else. *)
Lemma parse_args_outcomes argv :
  match Argparse.parse_args argparser argv with
  | inl err => err = SystemExit 0 \/ err = SystemExit 2
  | inr ns => (argv = [] /\ ns = ∅) \/ (argv <> [] /\ exists v, ns = {[ "conf" := v ]})
  end.
Proof.
  unfold Argparse.parse_args.
  destruct (Argparse.read_all argparser argv) as [args|] eqn:Hread; [|auto].
  apply read_all_known in Hread as [Hk Hl].
  pose proof (consume_outcomes (length args) args ∅ [] [] Hk ltac:(lia)) as H.
  destruct (Argparse.consume _ _ _ _ _ _) as [err|[[ns seen] extras]]; [done|].
  replace (existsb _ (Argparse.actions argparser)) with false by reflexivity.
  destruct extras; [|auto].
  destruct (H eq_refl) as [_ [[-> ->]|[Hne [v ->]]]].
  - left. by destruct argv.
  - right. split; [by destruct argv; destruct args|]. by exists v.
Qed.

Lemma trace_bind_starts {A B : Type} (m : M A) (f : A -> M B) g ev t :
  trace (m g) = ev :: t -> exists t', trace ((m ≫= f) g) = ev :: t'.
Proof.
  rewrite run_bind. destruct (m g) as [[[e|a] g1] t1]; simpl; intros ->; [eauto|].
  destruct (f a g1) as [[r g2] t2]. simpl. eauto.
Qed.

(** X14.  Every command line leads to one of four runs: an exit with status
    0 or 2 before anything is called; for the empty command line the
    [TypeError] of [open(None)]; for a namespace whose [conf] is the empty
    list a [TypeError] as well; or a namespace that binds [conf], and only
    [conf], to a path, and then the first event of the run is the opening of
    that path. *)
Theorem main_entry w argv g :
  let run := __main__ w argv g in
  (exists status, (status = 0 \/ status = 2) /\ run = (inl (SystemExit status), g, [])) \/
  (argv = [] /\ run = (inl TypeError, g, [])) \/
  (argv <> [] /\ run = (inl TypeError, g, []) /\
   Argparse.parse_args argparser argv = inr {[ "conf" := Argparse.EmptyList ]}) \/
  (argv <> [] /\ exists path t,
     Argparse.parse_args argparser argv = inr {[ "conf" := Argparse.Str path ]} /\
     trace run = Called (open_config path) :: t).
Proof.
  intros run. unfold run, __main__.
  pose proof (parse_args_outcomes argv) as H.
  destruct (Argparse.parse_args argparser argv) as [err|ns].
  - left. destruct H as [-> | ->]; eauto.
  - right. destruct H as [[-> ->]|[Hne [[path|] ->]]].
    + by left.
    + right. right. split; [done|]. exists path.
      unfold _main_. rewrite lookup_singleton_eq.
      match goal with
      | |- exists t, _ /\ trace ((?m ≫= ?f) g) = _ =>
          destruct (trace_bind_starts m f g (Called (open_config path)) []) as [t Ht];
            [|exists t; split; [done|exact Ht]]
      end.
      unfold load_config. rewrite run_bind. unfold do_call.
      by destruct (raises w (open_config path)).
    + right. left. by repeat split.
Qed.

(** X15.  A command line that starts with [-h] or [--help] exits with status
    0 before anything is called, whatever follows, provided no later
    argument is an ambiguous abbreviation. *)
Theorem help_exits_first w rest g flag :
  flag = "-h" \/ flag = "--help" ->
  Argparse.read_all argparser rest <> None ->
  __main__ w (flag :: rest) g = (inl (SystemExit 0), g, []).
Proof.
  intros Hflag Hrest. unfold __main__, Argparse.parse_args.
  destruct (Argparse.read_all argparser rest) as [args|] eqn:Hread; [|done].
  destruct Hflag as [-> | ->]; cbn [Argparse.read_all];
    [replace (String.eqb "-h" "--") with false by reflexivity;
     replace (Argparse.parse_optional argparser "-h") with
       (Argparse.optional (Argparse.assoc "-h" (Argparse.option_table argparser)) "-h" None)
       by reflexivity
    |replace (String.eqb "--help" "--") with false by reflexivity;
     replace (Argparse.parse_optional argparser "--help") with
       (Argparse.optional (Argparse.assoc "--help" (Argparse.option_table argparser))
          "--help" None)
       by reflexivity];
    rewrite Hread; reflexivity.
Qed.

(** X16.  A configuration path given without its flag, as the only
    argument, is a usage error: the run exits with status 2 before anything
    is called. *)
Theorem path_without_flag_is_an_error w path g :
  Argparse.parse_optional argparser path = Argparse.positional ->
  __main__ w [path] g = (inl (SystemExit 2), g, []).
Proof.
  intros Hpos. unfold __main__, Argparse.parse_args. cbn [Argparse.read_all].
  destruct (String.eqb path "--"); [reflexivity|].
  rewrite Hpos. reflexivity.
Qed.

(** On the command line [-h -c]. *)
Lemma help_exits_first_witness :
  __main__ (sample_world [] false false) ["-h"; "-c"] sample_rng
  = (inl (SystemExit 0), sample_rng, []).
Proof.
  apply (help_exits_first (sample_world [] false false) ["-c"] sample_rng "-h").
  - by left.
  - discriminate.
Defined.

(** On the command line [config.json]. *)
Lemma path_without_flag_is_an_error_witness :
  __main__ (sample_world [] false false) ["config.json"] sample_rng
  = (inl (SystemExit 2), sample_rng, []).
Proof.
  apply (path_without_flag_is_an_error (sample_world [] false false) "config.json" sample_rng).
  reflexivity.
Defined.
